(** * dns_migration.py: GoDaddy to Route 53 DNS migration

    A shallow embedding of [dns_migration.py] and the properties of its
    decision engine, record transformer, throttled gateway and processing
    loop.

    Conventions of the embedding.
    - A Python [str] is a [string]; one [ascii] stands for one character
      (a code point below 256).
    - The JSON objects of the two backends are records whose fields are the
      keys the script reads.
    - Exceptions are values of [exn]; a computation returns [Ok v] or
      [Raise e] together with the state it leaves behind, so that a
      mutation made before an exception is still visible after it.
    - The two remote services and the wall clock form the outside world, a
      state of an arbitrary type [W] with the operations of [Services W].
    - Times are integers, in microseconds (the resolution of [datetime]).
    - Calls to [logger] have no effect on any value and are left out. *)

From Stdlib Require Import ZArith Lia Ascii String DecimalString.
From stdpp Require Import base tactics option list strings gmap.

Local Open Scope Z_scope.

(** ** Strings *)

Infix "==" := String.eqb (at level 70, no associativity).

(** The one-character string made of a double quote, code 34. *)
Definition dquote : string :=
  String (Ascii false true false false false true false false) EmptyString.

(** [str(n)] for a Python [int]. *)
Definition str_of_int (n : Z) : string := NilZero.string_of_int (Z.to_int n).

(** [c.isspace()] for a character below 256: tab, line feed, vertical tab,
    form feed, carriage return, the four separators 28 to 31, space, next
    line (133) and no-break space (160). *)
Definition isspace (c : ascii) : bool :=
  let n := nat_of_ascii c in
  ((9 <=? n) && (n <=? 13) || (28 <=? n) && (n <=? 32)
   || (n =? 133) || (n =? 160))%nat.

(** [s.split()] with no argument: the maximal runs of characters that are
    not whitespace, in order.  [cur] is the run being read. *)
Fixpoint split_go (cur : option string) (s : string) : list string :=
  match s with
  | EmptyString =>
      match cur with Some w => [w] | None => [] end
  | String c s' =>
      if isspace c
      then match cur with
           | Some w => w :: split_go None s'
           | None => split_go None s'
           end
      else split_go (Some (match cur with
                           | Some w => w +:+ String c EmptyString
                           | None => String c EmptyString
                           end)) s'
  end.

Definition split (s : string) : list string := split_go None s.

(** ** Exceptions and the state-and-exception monad *)

Inductive exn : Type :=
  | BadResponse               (* godaddypy.client.BadResponse *)
  | InvalidInput              (* r53_client.exceptions.InvalidInput *)
  | InvalidDomainName         (* r53_client.exceptions.InvalidDomainName *)
  | HostedZoneAlreadyExists   (* r53_client.exceptions.HostedZoneAlreadyExists *)
  | KeyError (key : string)
  | OtherException (msg : string).

Inductive res (A : Type) : Type :=
  | Ok (a : A)
  | Raise (e : exn).
Arguments Ok {A} a.
Arguments Raise {A} e.

Definition M (S A : Type) : Type := S -> res A * S.

Definition ret {S A} (a : A) : M S A := fun s => (Ok a, s).

Definition raise {S A} (e : exn) : M S A := fun s => (Raise e, s).

Definition bind {S A B} (m : M S A) (k : A -> M S B) : M S B :=
  fun s => match m s with
           | (Ok a, s') => k a s'
           | (Raise e, s') => (Raise e, s')
           end.

Notation "x <- m ;; k" := (bind m (fun x => k))
  (at level 100, m at next level, right associativity).
Notation "m ;; k" := (bind m (fun _ => k))
  (at level 100, right associativity).

Definition get {S} : M S S := fun s => (Ok s, s).
Definition modify {S} (f : S -> S) : M S unit := fun s => (Ok tt, f s).

(** [try: body except ...]: [handler e] is [Some h] when a clause catches
    [e]; an exception no clause catches goes on. *)
Definition try_except {S A} (body : M S A) (handler : exn -> option (M S A))
  : M S A :=
  fun s => match body s with
           | (Ok a, s') => (Ok a, s')
           | (Raise e, s') =>
               match handler e with
               | Some h => h s'
               | None => (Raise e, s')
               end
           end.

(** ** Data of the two backends *)

(** A DNS record as GoDaddy reports it: the dict [record] of the script.
    [priority] is present for the types that carry one; reading it from a
    record without it is a [KeyError]. *)
Module DNS.
Record record : Type := {
  name : string;
  type : string;
  data : string;
  ttl : Z;
  priority : option Z
}.
End DNS.

(** A zone of [list_hosted_zones_by_name]'s [HostedZones]. *)
Module HostedZone.
Record t : Type := { Name : string; Id : string }.
End HostedZone.

(** The dict of one aggregated record set, and one change of the batch. *)
Module ResourceRecord.
Record t : Type := { Value : string }.
End ResourceRecord.

Module ResourceRecordSet.
Record t : Type := {
  Name : string;
  Type_ : string;
  TTL : Z;
  ResourceRecords : list ResourceRecord.t
}.
End ResourceRecordSet.

Module Change.
Record t : Type := { Action : string; ResourceRecordSet : ResourceRecordSet.t }.
End Change.

(** ** The outside world *)

Class Services (W : Type) : Type := {
  (** [datetime.now()] *)
  datetime_now : W -> Z;
  (** [sleep(d)], [d] in microseconds *)
  sleep : Z -> W -> W;
  (** godaddypy [Client.get_records(domain)] *)
  client_get_records : string -> W -> res (list DNS.record) * W;
  (** godaddypy [Client.update_domain(domain, nameServers=...)] *)
  client_update_domain : string -> list string -> W -> res unit * W;
  (** [list_hosted_zones_by_name(DNSName=...)['HostedZones']] *)
  list_hosted_zones_by_name : string -> W -> res (list HostedZone.t) * W;
  (** [create_hosted_zone(Name=..., CallerReference=...)['HostedZone']['Id']];
      the fresh [uuid4] is drawn by the world *)
  create_hosted_zone : string -> W -> res string * W;
  (** [get_hosted_zone(Id=...)['DelegationSet']['NameServers']] *)
  get_hosted_zone : option string -> W -> res (list string) * W;
  (** [change_resource_record_sets(HostedZoneId=..., ChangeBatch={'Changes': ...})] *)
  change_resource_record_sets :
    option string -> list Change.t -> W -> res string * W
}.

(** ** The throttled client of the registrar: [class GoDaddyClient] *)

Module GoDaddyClient.

(** The attribute [client] is the handle of the remote service, which is
    part of the world; [last_call_time] is the object's own state. *)
Record t : Type := { last_call_time : Z }.

(** [timedelta(milliseconds=1000)] *)
Definition wait_time : Z := 1000 * 1000.

Section Methods.
Context {W : Type} `{Services W}.

Definition __init__ (w : W) : t := {| last_call_time := datetime_now w |}.

Definition _wait_until : M (t * W) unit :=
  fun '(self, w) =>
    let time_since_last_call := datetime_now w - last_call_time self in
    if time_since_last_call <? wait_time
    then
      let time_to_wait := wait_time - time_since_last_call in
      let w := sleep time_to_wait w in
      (Ok tt, ({| last_call_time := datetime_now w |}, w))
    else (Ok tt, (self, w)).

Definition get_records (domain : string) : M (t * W) (list DNS.record) :=
  _wait_until ;;
  (fun '(self, w) =>
     let '(r, w) := client_get_records domain w in (r, (self, w))).

Definition update_domain (domain : string) (nameServers : list string)
  : M (t * W) unit :=
  _wait_until ;;
  (fun '(self, w) =>
     let '(r, w) := client_update_domain domain nameServers w in
     (r, (self, w))).
End Methods.

End GoDaddyClient.

(** ** The state of the script *)

(** An object of [class Domain].  [index] is [None] only between the
    constructor and the next line of the script, which sets it to the row
    of the domain; the embedding gives it at once. *)
Record Domain : Type := {
  name : string;
  _r53_zone_id : option string;
  index : nat;
  _records : option (list DNS.record)
}.

(** [domains_data]: the rows of the data frame, a row maps a column name
    to the value of its cell ([None] is Python's [None]). *)
Definition DataFrame : Type := list (gmap string (option string)).

(** What the code can read and write: the [Domain] object a method runs
    on ([self], the [domain] of the processing loop), the module-level
    [gd_client] and [domains_data], what [to_csv] wrote to [OUTPUT_FILE],
    and the outside world. *)
Record State (W : Type) : Type := {
  domain : Domain;
  gd_client : GoDaddyClient.t;
  domains_data : DataFrame;
  output_file : option DataFrame;
  world : W
}.
Arguments domain {W} _.
Arguments gd_client {W} _.
Arguments domains_data {W} _.
Arguments output_file {W} _.
Arguments world {W} _.

(** Python truth values of an optional list and of an optional string. *)
Definition truthy_list {A} (l : option (list A)) : bool :=
  match l with Some (_ :: _) => true | _ => false end.

Definition truthy_str (s : option string) : bool :=
  match s with Some (String _ _) => true | _ => false end.

Section Script.
Context {W : Type} `{Services W}.

Definition get_domain : M (State W) Domain := fun st => (Ok (domain st), st).

Definition set_domain (d : Domain) : M (State W) unit :=
  fun st => (Ok tt, {| domain := d; gd_client := gd_client st;
                       domains_data := domains_data st;
                       output_file := output_file st; world := world st |}).

(** [self._records = value] *)
Definition set__records (value : option (list DNS.record)) : M (State W) unit :=
  self <- get_domain ;;
  set_domain {| name := name self; _r53_zone_id := _r53_zone_id self;
                index := index self; _records := value |}.

(** [self._r53_zone_id = value], the setter of [r53_zone_id] *)
Definition set_r53_zone_id (value : option string) : M (State W) unit :=
  self <- get_domain ;;
  set_domain {| name := name self; _r53_zone_id := value;
                index := index self; _records := _records self |}.

(** A call of a method of [gd_client]. *)
Definition on_gd_client {A} (m : M (GoDaddyClient.t * W) A) : M (State W) A :=
  fun st =>
    let '(r, (c, w)) := m (gd_client st, world st) in
    (r, {| domain := domain st; gd_client := c;
           domains_data := domains_data st;
           output_file := output_file st; world := w |}).

(** A call of an operation of [r53_client]. *)
Definition on_r53_client {A} (op : W -> res A * W) : M (State W) A :=
  fun st =>
    let '(r, w) := op (world st) in
    (r, {| domain := domain st; gd_client := gd_client st;
           domains_data := domains_data st;
           output_file := output_file st; world := w |}).

(** [domains_data.at[i, column] = value] *)
Definition at_set (i : nat) (column : string) (value : option string)
  : M (State W) unit :=
  fun st =>
    (Ok tt, {| domain := domain st; gd_client := gd_client st;
               domains_data := alter (insert column value) i (domains_data st);
               output_file := output_file st; world := world st |}).

(** [domains_data.to_csv(OUTPUT_FILE, index=False)] *)
Definition to_csv : M (State W) unit :=
  fun st =>
    (Ok tt, {| domain := domain st; gd_client := gd_client st;
               domains_data := domains_data st;
               output_file := Some (domains_data st); world := world st |}).

(** *** The properties [records] and [r53_zone_id] *)

Definition records : M (State W) (list DNS.record) :=
  try_except
    (self <- get_domain ;;
     if negb (truthy_list (_records self))
     then
       fetched <- on_gd_client (GoDaddyClient.get_records (name self)) ;;
       set__records (Some fetched)
     else ret tt)
    (fun e => match e with
              | BadResponse => Some (set__records (Some []))
              | _ => None
              end) ;;
  self <- get_domain ;;
  (* [_records] holds a list on each of the three ways to this point *)
  ret (default [] (_records self)).

(** The loop over [hosted_zones['HostedZones']] with its [break]. *)
Fixpoint matching_zone (self_name : string) (zones : list HostedZone.t)
  : option string :=
  match zones with
  | [] => None
  | zone :: zones =>
      if HostedZone.Name zone == self_name +:+ "."
      then Some (HostedZone.Id zone)
      else matching_zone self_name zones
  end.

(** In [except InvalidInput or InvalidDomainName:] the expression after
    [except] is evaluated first, and [X or Y] is [X] when [X] is true, as
    a class is: the clause names [InvalidInput] alone. *)
Definition r53_zone_id : M (State W) (option string) :=
  self <- get_domain ;;
  if truthy_str (_r53_zone_id self)
  then ret (_r53_zone_id self)
  else
    try_except
      (hosted_zones <- on_r53_client (list_hosted_zones_by_name (name self)) ;;
       match matching_zone (name self) hosted_zones with
       | Some id => set_r53_zone_id (Some id)
       | None => ret tt
       end)
      (fun e => match e with
                | InvalidInput => Some (ret tt)
                | _ => None
                end) ;;
    self <- get_domain ;;
    ret (_r53_zone_id self).

(** *** The decision engine *)

Definition gd_dns_exists : M (State W) bool :=
  rs <- records ;;
  if (0 <? length rs)%nat then ret true else ret false.

Definition is_parked_apex (record : DNS.record) : bool :=
  (DNS.name record == "@") && (DNS.type record == "A")
  && (DNS.data record == "Parked").

Definition requires_zone_migration : M (State W) bool :=
  exists_ <- gd_dns_exists ;;
  if negb exists_ then ret false
  else
    rs <- records ;;
    let domain_parked :=
      fold_left (fun domain_parked record =>
                   if is_parked_apex record then true else domain_parked)
                rs false in
    if negb domain_parked then ret true
    else
      rs <- records ;;
      if (length rs <=? 6)%nat then ret true else ret false.

Definition has_mx_records : M (State W) bool :=
  rs <- records ;;
  ret (existsb (fun record => DNS.type record == "MX") rs).

(** *** The adapters *)

Definition gd_update_nameservers (nameservers : list string) : M (State W) bool :=
  try_except
    (self <- get_domain ;;
     on_gd_client (GoDaddyClient.update_domain (name self) nameservers) ;;
     ret true)
    (fun _ => Some (ret false)).

Definition r53_zone_exists : M (State W) bool :=
  id <- r53_zone_id ;;
  if truthy_str id then ret true else ret false.

Definition r53_get_nameservers : M (State W) (list string) :=
  try_except
    (id <- r53_zone_id ;;
     on_r53_client (get_hosted_zone id))
    (fun _ => Some (ret [])).

(** Line 218 formats [self.r53_zone_id] into its message, which reads the
    property once more before the [return] does. *)
Definition r53_create_zone : M (State W) (option string) :=
  try_except
    (self <- get_domain ;;
     id <- on_r53_client (create_hosted_zone (name self)) ;;
     set_r53_zone_id (Some id))
    (fun _ => Some (ret tt)) ;;
  r53_zone_id ;;
  r53_zone_id.
End Script.

(** ** The record transformer: [Domain.r53_create_records] *)

(** *** The body of the loop, up to the aggregation (lines 238 to 271)

    The body works on the dict [record] and changes it in place: it is a
    computation whose state is that dict.  It returns [false] where the
    code says [continue] and [true] where it goes on to the aggregation. *)

Definition set_name (value : string) : M DNS.record unit :=
  modify (fun record =>
    {| DNS.name := value; DNS.type := DNS.type record;
       DNS.data := DNS.data record; DNS.ttl := DNS.ttl record;
       DNS.priority := DNS.priority record |}).

Definition set_data (value : string) : M DNS.record unit :=
  modify (fun record =>
    {| DNS.name := DNS.name record; DNS.type := DNS.type record;
       DNS.data := value; DNS.ttl := DNS.ttl record;
       DNS.priority := DNS.priority record |}).

(** [record['priority']] *)
Definition get_priority : M DNS.record Z :=
  record <- get ;;
  match DNS.priority record with
  | Some p => ret p
  | None => raise (KeyError "priority")
  end.

(** [x in l] for a list of strings *)
Definition str_in (x : string) (l : list string) : bool :=
  existsb (fun y => x == y) l.

Definition when {S} (b : bool) (m : M S unit) : M S unit :=
  if b then m else ret tt.

Definition transform (self_name : string) : M DNS.record bool :=
  record <- get ;;
  if str_in (DNS.type record) ["SOA"; "NS"] then ret false else
  if (DNS.type record == "A") && (DNS.data record == "Parked") then ret false else
  if (DNS.type record == "CNAME") && (DNS.name record == "_domainconnect")
  then ret false else
  when ((DNS.type record == "CNAME") && (DNS.data record == "@"))
       (set_data self_name) ;;
  record <- get ;;
  when ((DNS.type record == "A") && (DNS.data record == "WebsiteBuilder Site"))
       (set_data "76.223.105.230") ;;
  record <- get ;;
  (if DNS.name record == "@"
   then set_name self_name
   else set_name (DNS.name record +:+ "." +:+ self_name)) ;;
  record <- get ;;
  (if DNS.type record == "MX"
   then
     priority <- get_priority ;;
     set_data (str_of_int priority +:+ " " +:+ DNS.data record)
   else ret tt) ;;
  record <- get ;;
  when (DNS.type record == "TXT")
       (set_data (dquote +:+ DNS.data record +:+ dquote)) ;;
  record <- get ;;
  if (DNS.type record == "SRV") && negb (length (split (DNS.data record)) =? 4)%nat
  then ret false
  else ret true.

(** *** The aggregation (lines 274 to 284)

    [aggregated_records] is a dict whose keys are pairs (name, type); its
    values are read back in insertion order, so it is a list of bindings
    with one binding for a key, a new key going to the end. *)

Definition Key : Type := string * string.

Definition key_eqb (k1 k2 : Key) : bool :=
  (fst k1 == fst k2) && (snd k1 == snd k2).

Definition Aggregated : Type := list (Key * ResourceRecordSet.t).

(** [key in aggregated_records] *)
Definition has_key (key : Key) (aggregated_records : Aggregated) : bool :=
  existsb (fun kv => key_eqb key (fst kv)) aggregated_records.

(** [rrset['ResourceRecords'].append(value)] *)
Definition append (value : ResourceRecord.t) (rrset : ResourceRecordSet.t)
  : ResourceRecordSet.t :=
  {| ResourceRecordSet.Name := ResourceRecordSet.Name rrset;
     ResourceRecordSet.Type_ := ResourceRecordSet.Type_ rrset;
     ResourceRecordSet.TTL := ResourceRecordSet.TTL rrset;
     ResourceRecordSet.ResourceRecords :=
       ResourceRecordSet.ResourceRecords rrset ++ [value] |}.

(** [aggregated_records[key]['ResourceRecords'].append(value)] *)
Definition append_value (key : Key) (value : ResourceRecord.t)
    (aggregated_records : Aggregated) : Aggregated :=
  map (fun kv => if key_eqb key (fst kv) then (fst kv, append value (snd kv))
                 else kv)
      aggregated_records.

Definition aggregate (record : DNS.record) (aggregated_records : Aggregated)
  : Aggregated :=
  let key := (DNS.name record, DNS.type record) in
  let aggregated_records :=
    if negb (has_key key aggregated_records)
    then aggregated_records ++
         [(key, {| ResourceRecordSet.Name := DNS.name record;
                   ResourceRecordSet.Type_ := DNS.type record;
                   ResourceRecordSet.TTL := DNS.ttl record;
                   ResourceRecordSet.ResourceRecords := [] |})]
    else aggregated_records in
  append_value key {| ResourceRecord.Value := DNS.data record |} aggregated_records.

(** *** The loop [for record in self.records] (lines 237 to 284)

    The state is the list being walked, whose dicts the body changes in
    place: the result carries the list as the loop leaves it, also when an
    exception ends the loop before the last record. *)
Fixpoint for_records (self_name : string) (records : list DNS.record)
    (aggregated_records : Aggregated) : res Aggregated * list DNS.record :=
  match records with
  | [] => (Ok aggregated_records, [])
  | record :: rest =>
      match transform self_name record with
      | (Ok true, record) =>
          let '(r, rest) :=
            for_records self_name rest (aggregate record aggregated_records) in
          (r, record :: rest)
      | (Ok false, record) =>
          let '(r, rest) := for_records self_name rest aggregated_records in
          (r, record :: rest)
      | (Raise e, record) => (Raise e, record :: rest)
      end
  end.

(** The list [changes] (lines 287 to 293). *)
Definition changes_of (aggregated_records : Aggregated) : list Change.t :=
  map (fun aggregated_record =>
         {| Change.Action := "UPSERT";
            Change.ResourceRecordSet := aggregated_record |})
      (map snd aggregated_records).

Section CreateRecords.
Context {W : Type} `{Services W}.

(** Lines 235 to 293 of [r53_create_records]: the change batch.  The
    list the property [records] returns is the object held in
    [_records], so the dicts changed by the loop are the cached ones. *)
Definition r53_changes : M (State W) (list Change.t) :=
  rs <- records ;;
  self <- get_domain ;;
  let '(r, rs) := for_records (name self) rs [] in
  set__records (Some rs) ;;
  match r with
  | Ok aggregated_records => ret (changes_of aggregated_records)
  | Raise e => raise e
  end.

(** The call is in no [try]: what it raises leaves the method. *)
Definition r53_create_records : M (State W) string :=
  changes <- r53_changes ;;
  id <- r53_zone_id ;;
  on_r53_client (change_resource_record_sets id changes).

(** *** The processing loop (lines 337 to 359) *)

Definition yes_no (b : bool) : option string :=
  Some (if b then "Yes" else "No").

(** The body of [for domain in domains]. *)
Definition process (d : Domain) : M (State W) unit :=
  set_domain d ;;
  has_dns <- gd_dns_exists ;;
  at_set (index d) "Has GoDaddy DNS" (yes_no has_dns) ;;
  required <- requires_zone_migration ;;
  (if required
   then
     at_set (index d) "Requires DNS Migration" (Some "Yes") ;;
     zone_exists <- r53_zone_exists ;;
     (if negb zone_exists then r53_create_zone ;; ret tt else ret tt) ;;
     id <- r53_zone_id ;;
     at_set (index d) "AWS Zone ID" id ;;
     r53_create_records ;;
     at_set (index d) "AWS DNS Records Created" (Some "Yes") ;;
     nameservers <- r53_get_nameservers ;;
     match nameservers with
     | _ :: _ => gd_update_nameservers nameservers ;; ret tt
     | [] => ret tt
     end
   else
     at_set (index d) "Requires DNS Migration" (Some "No") ;;
     at_set (index d) "AWS DNS Records Created" (Some "No")) ;;
  has_mx <- has_mx_records ;;
  at_set (index d) "Supports Email" (yes_no has_mx).

Fixpoint for_domains (domains : list Domain) : M (State W) unit :=
  match domains with
  | [] => ret tt
  | d :: rest => process d ;; for_domains rest
  end.

(** The loop and the two statements after it that matter: the report is
    written once every domain is done. *)
Definition processing_loop (domains : list Domain) : M (State W) unit :=
  for_domains domains ;;
  to_csv.
End CreateRecords.

(** ** A scripted world

    A world to run the script in: a clock, the answers the two backends
    will give, and a log of the calls they received.  Remote calls take no
    time here; [elapse] lets time pass between two calls. *)

Module Sim.

Record call : Type := { op : string; arg : string; at_time : Z }.

Record t : Type := {
  clock : Z;
  (** the answers of the successive calls of [get_records] *)
  get_records_script : list (res (list DNS.record));
  update_domain_answer : res unit;
  list_hosted_zones_answer : res (list HostedZone.t);
  create_hosted_zone_answer : res string;
  get_hosted_zone_answer : res (list string);
  change_answer : res string;
  calls : list call
}.

Definition log (o a : string) (w : t) : list call :=
  calls w ++ [{| op := o; arg := a; at_time := clock w |}].

Definition update (c : Z) (script : list (res (list DNS.record)))
    (l : list call) (w : t) : t :=
  {| clock := c; get_records_script := script;
     update_domain_answer := update_domain_answer w;
     list_hosted_zones_answer := list_hosted_zones_answer w;
     create_hosted_zone_answer := create_hosted_zone_answer w;
     get_hosted_zone_answer := get_hosted_zone_answer w;
     change_answer := change_answer w; calls := l |}.

(** Time passing, in [sleep] or between two calls. *)
Definition elapse (d : Z) (w : t) : t :=
  update (clock w + d) (get_records_script w) (calls w) w.

Definition answer {A} (o a : string) (r : t -> res A) (w : t) : res A * t :=
  (r w, update (clock w) (get_records_script w) (log o a w) w).

(** [get_records] reads its answer off the script; a script that has run
    out answers [BadResponse]. *)
Definition get_records (domain : string) (w : t) : res (list DNS.record) * t :=
  match get_records_script w with
  | [] => answer "get_records" domain (fun _ => Raise BadResponse) w
  | r :: script => (r, update (clock w) script (log "get_records" domain w) w)
  end.

#[global] Instance services : Services t := {|
  datetime_now := clock;
  sleep := elapse;
  client_get_records := get_records;
  client_update_domain := fun domain _ =>
    answer "update_domain" domain update_domain_answer;
  list_hosted_zones_by_name := fun domain =>
    answer "list_hosted_zones_by_name" domain list_hosted_zones_answer;
  create_hosted_zone := fun domain =>
    answer "create_hosted_zone" domain create_hosted_zone_answer;
  get_hosted_zone := fun id =>
    answer "get_hosted_zone" (default "None" id) get_hosted_zone_answer;
  change_resource_record_sets := fun id _ =>
    answer "change_resource_record_sets" (default "None" id) change_answer
|}.

(** A world at time 0 with the given answers of [get_records],
    [list_hosted_zones_by_name] and [change_resource_record_sets]; the
    other calls succeed. *)
Definition initial (script : list (res (list DNS.record)))
    (zones : res (list HostedZone.t)) (change : res string) : t :=
  {| clock := 0; get_records_script := script;
     update_domain_answer := Ok tt;
     list_hosted_zones_answer := zones;
     create_hosted_zone_answer := Ok "/hostedzone/Z1";
     get_hosted_zone_answer := Ok ["ns-1.awsdns-01.org"; "ns-2.awsdns-02.net"];
     change_answer := change;
     calls := [] |}.

(** [gd_client.get_records] called once after each of the idle times of
    the list. *)
Fixpoint paced_calls (idle : list Z) (s : GoDaddyClient.t * t)
  : GoDaddyClient.t * t :=
  match idle with
  | [] => s
  | d :: idle =>
      let '(c, w) := s in
      let '(_, s) := GoDaddyClient.get_records "example.com" (c, elapse d w) in
      paced_calls idle s
  end.

(** [Domain(name)] for a name already in lower case and trimmed, with
    the index the script gives it next. *)
Definition new_domain (n : string) (i : nat) : Domain :=
  {| name := n; _r53_zone_id := None; index := i; _records := None |}.

(** The state when a method of [d] starts in world [w], [gd_client]
    having been made at the time of [w]. *)
Definition start (d : Domain) (frame : DataFrame) (w : t) : State t :=
  {| domain := d; gd_client := GoDaddyClient.__init__ w;
     domains_data := frame; output_file := None; world := w |}.

End Sim.

(** ** The constructor of [Domain] and the list of domains *)

(** [c.lower()] for a character below 256: the letters [A] to [Z] and the
    capital letters of Latin-1, 192 to 222 but for the multiplication sign
    215, move up by 32. *)
Definition lower_char (c : ascii) : ascii :=
  let n := nat_of_ascii c in
  if ((65 <=? n) && (n <=? 90)
      || (192 <=? n) && (n <=? 222) && negb (n =? 215))%nat
  then ascii_of_nat (n + 32)
  else c.

(** [s.lower()], for a string of characters below 256, which are the
    characters of [string]: there [str.lower] gives one character for each.
    For some characters above 255 it gives two (for the capital I with a
    dot above, 304, an [i] and a combining dot), so that a name can grow
    in [Domain.__init__]: no property below is about the length of the
    result. *)
Fixpoint lower (s : string) : string :=
  match s with
  | EmptyString => EmptyString
  | String c s => String (lower_char c) (lower s)
  end.

(** [s.lstrip()], [s.rstrip()] and [s.strip()] with no argument. *)
Fixpoint lstrip (s : string) : string :=
  match s with
  | EmptyString => EmptyString
  | String c s' => if isspace c then lstrip s' else s
  end.

Fixpoint rstrip (s : string) : string :=
  match s with
  | EmptyString => EmptyString
  | String c s' =>
      match rstrip s' with
      | EmptyString => if isspace c then EmptyString else String c EmptyString
      | t => String c t
      end
  end.

Definition strip (s : string) : string := rstrip (lstrip s).

(** [Domain(name)] (lines 78 to 86) with the assignment of its index that
    follows it in the script (line 334). *)
Definition make_domain (row_name : string) (i : nat) : Domain :=
  {| name := strip (lower row_name); _r53_zone_id := None; index := i;
     _records := None |}.

(** The loop over [domains_data.iterrows()] (lines 332 to 335), the rows
    numbered from [i].  [row['Name']] is a [KeyError] in a row without
    that column; a cell without a string in it has no [lower]. *)
Fixpoint make_domains_from (i : nat) (rows : DataFrame) : res (list Domain) :=
  match rows with
  | [] => Ok []
  | row :: rows =>
      match row !! "Name" with
      | None => Raise (KeyError "Name")
      | Some None => Raise (OtherException "AttributeError")
      | Some (Some row_name) =>
          match make_domains_from (S i) rows with
          | Ok domains => Ok (make_domain row_name i :: domains)
          | Raise e => Raise e
          end
      end
  end.

Definition make_domains (rows : DataFrame) : res (list Domain) :=
  make_domains_from 0 rows.

(** The script from the loop that makes the domains to [to_csv] (lines 328
    to 359), [domains_data] being what [read_csv] has read. *)
Definition main {W : Type} `{Services W} : M (State W) unit :=
  st <- get ;;
  match make_domains (domains_data st) with
  | Ok domains => processing_loop domains
  | Raise e => raise e
  end.


(** ** The list of domains read from a text file: [get_domains_list] *)

Definition LF : ascii := "010"%char.
Definition CR : ascii := "013"%char.

(** [file.readlines()] on the text of a file opened in text mode: a line
    ends after its line feed, and a carriage return, alone or followed by a
    line feed, is read as a line feed.  [cur] is the line being read and
    [after_cr] tells that the last character was a carriage return. *)
Fixpoint readlines_go (after_cr : bool) (cur : string) (s : string)
  : list string :=
  match s with
  | EmptyString =>
      match cur with EmptyString => [] | _ => [cur] end
  | String c s' =>
      if Ascii.eqb c LF
      then if after_cr
           then readlines_go false cur s'
           else (cur +:+ String LF EmptyString)
                :: readlines_go false EmptyString s'
      else if Ascii.eqb c CR
      then (cur +:+ String LF EmptyString) :: readlines_go true EmptyString s'
      else readlines_go false (cur +:+ String c EmptyString) s'
  end.

Definition readlines (s : string) : list string :=
  readlines_go false EmptyString s.

(** [get_domains_list(file_path)] (lines 308 to 324), given what opening
    and reading the file gives: its text, or the exception raised.  Both
    [except] clauses log and fall through to [return []]. *)
Definition get_domains_list (opened : res string) : list string :=
  match opened with
  | Ok text => map strip (readlines text)
  | Raise _ => []
  end.

(** ** A world without the domain

    A second world to run the script in: a clock, a registrar that answers
    [BadResponse] to every [get_records], and backends that refuse every
    other call. *)

Module Unknown.

Definition t : Type := Z.

#[global] Instance services : Services t := {|
  datetime_now := fun w => w;
  sleep := fun d w => w + d;
  client_get_records := fun _ w => (Raise BadResponse, w);
  client_update_domain := fun _ _ w => (Raise (OtherException "update_domain"), w);
  list_hosted_zones_by_name := fun _ w => (Ok [], w);
  create_hosted_zone := fun _ w => (Raise (OtherException "create_hosted_zone"), w);
  get_hosted_zone := fun _ w => (Raise (OtherException "get_hosted_zone"), w);
  change_resource_record_sets := fun _ _ w =>
    (Raise (OtherException "change_resource_record_sets"), w)
|}.

End Unknown.

(** ** Notions used to state the properties *)

(** A record has the fields its type requires: an [MX] record has its
    priority, the one field the script reads that a record may lack. *)
Definition well_formed (r : DNS.record) : Prop :=
  DNS.type r = "MX" -> is_Some (DNS.priority r).

(** The records for which the body says [continue]. *)
Definition dropped (r : DNS.record) : Prop :=
  DNS.type r = "SOA" \/ DNS.type r = "NS"
  \/ (DNS.type r = "A" /\ DNS.data r = "Parked")
  \/ (DNS.type r = "CNAME" /\ DNS.name r = "_domainconnect")
  \/ (DNS.type r = "SRV" /\ length (split (DNS.data r)) <> 4%nat).

(** The records that reach the aggregation, as the body leaves them. *)
Definition survivors (self_name : string) (records : list DNS.record)
  : list DNS.record :=
  flat_map (fun r => match transform self_name r with
                     | (Ok true, r') => [r']
                     | _ => []
                     end) records.

(** The key and the value the aggregation makes of a record. *)
Definition key_of (r : DNS.record) : Key := (DNS.name r, DNS.type r).

Definition value_of (r : DNS.record) : ResourceRecord.t :=
  {| ResourceRecord.Value := DNS.data r |}.

(** The records of a list that have the key [k]. *)
Definition with_key (k : Key) (l : list DNS.record) : list DNS.record :=
  List.filter (fun r => key_eqb k (key_of r)) l.

(** What the dict holds once the records [done] have been aggregated: one
    binding for each key of [done]; its record set has the name and the
    type of the key, the data of the records of that key in order, and the
    TTL of the first of them. *)
Definition represents (done : list DNS.record) (agg : Aggregated) : Prop :=
  NoDup (map fst agg) /\
  (forall k, In k (map fst agg) <-> In k (map key_of done)) /\
  (forall k e, In (k, e) agg ->
     ResourceRecordSet.Name e = fst k /\
     ResourceRecordSet.Type_ e = snd k /\
     ResourceRecordSet.ResourceRecords e = map value_of (with_key k done) /\
     exists first rest,
       with_key k done = first :: rest /\
       ResourceRecordSet.TTL e = DNS.ttl first).

(** *** The rules of the transformer in the words of the specification

    These four definitions do not come from the code: they say, rule by
    rule, what the specification says of a record ([spec_dropped]: rules 1,
    2, 3 and 9; [spec_data]: rules 4, 5, 7 and 8; [spec_name]: rule 6), to
    be compared with what [transform] does. *)

Definition spec_dropped (r : DNS.record) : bool :=
  (DNS.type r == "SOA") || (DNS.type r == "NS")
  || (DNS.type r == "A") && (DNS.data r == "Parked")
  || (DNS.type r == "CNAME") && (DNS.name r == "_domainconnect")
  || (DNS.type r == "SRV") && negb (length (split (DNS.data r)) =? 4)%nat.

Definition spec_name (self_name : string) (r : DNS.record) : string :=
  if DNS.name r == "@" then self_name
  else DNS.name r +:+ "." +:+ self_name.

Definition spec_data (self_name : string) (r : DNS.record) : string :=
  if (DNS.type r == "CNAME") && (DNS.data r == "@") then self_name
  else if (DNS.type r == "A") && (DNS.data r == "WebsiteBuilder Site")
  then "76.223.105.230"
  else if DNS.type r == "MX"
  then match DNS.priority r with
       | Some p => str_of_int p +:+ " " +:+ DNS.data r
       | None => DNS.data r
       end
  else if DNS.type r == "TXT" then dquote +:+ DNS.data r +:+ dquote
  else DNS.data r.

(** The records that the rules keep, each with the name and the data the
    rules give it and with its own type and TTL, in the order of the
    list. *)
Definition spec_survivors (self_name : string) (records : list DNS.record)
  : list DNS.record :=
  map (fun r => {| DNS.name := spec_name self_name r;
                   DNS.type := DNS.type r;
                   DNS.data := spec_data self_name r;
                   DNS.ttl := DNS.ttl r;
                   DNS.priority := DNS.priority r |})
      (List.filter (fun r => negb (spec_dropped r)) records).

(** The name and the type of a change. *)
Definition key_of_change (c : Change.t) : Key :=
  (ResourceRecordSet.Name (Change.ResourceRecordSet c),
   ResourceRecordSet.Type_ (Change.ResourceRecordSet c)).

(** All the values of a change batch. *)
Definition values_of (changes : list Change.t) : list ResourceRecord.t :=
  flat_map (fun c => ResourceRecordSet.ResourceRecords (Change.ResourceRecordSet c))
           changes.

(** ** Example data *)

Definition a_record (n d : string) : DNS.record :=
  {| DNS.name := n; DNS.type := "A"; DNS.data := d; DNS.ttl := 600;
     DNS.priority := None |}.

Definition record_of (n t d : string) : DNS.record :=
  {| DNS.name := n; DNS.type := t; DNS.data := d; DNS.ttl := 3600;
     DNS.priority := None |}.

Definition mx_record : DNS.record :=
  {| DNS.name := "@"; DNS.type := "MX"; DNS.data := "mail.example.com";
     DNS.ttl := 3600; DNS.priority := Some 10 |}.

(** A parked zone of seven records. *)
Definition parked_zone : list DNS.record :=
  [a_record "@" "Parked";
   record_of "www" "CNAME" "@";
   record_of "_domainconnect" "CNAME" "_domainconnect.gd.domaincontrol.com";
   record_of "@" "NS" "ns01.domaincontrol.com";
   record_of "@" "NS" "ns02.domaincontrol.com";
   record_of "@" "SOA" "Primary nameserver: ns01.domaincontrol.com";
   record_of "@" "TXT" "v=spf1 -all"].

(** The two [www] records of a zone in use. *)
Definition www_zone : list DNS.record :=
  [a_record "www" "1.2.3.4";
   {| DNS.name := "www"; DNS.type := "A"; DNS.data := "5.6.7.8";
      DNS.ttl := 3600; DNS.priority := None |}].

(** The change batch of [www_zone] for the domain [example.com]. *)
Definition www_changes : list Change.t :=
  [{| Change.Action := "UPSERT";
      Change.ResourceRecordSet :=
        {| ResourceRecordSet.Name := "www.example.com";
           ResourceRecordSet.Type_ := "A";
           ResourceRecordSet.TTL := 600;
           ResourceRecordSet.ResourceRecords :=
             [{| ResourceRecord.Value := "1.2.3.4" |};
              {| ResourceRecord.Value := "5.6.7.8" |}] |} |}].

(** A data frame with one row for each name. *)
Definition frame_of (names : list string) : DataFrame :=
  map (fun n => {[ "Name" := Some n ]}) names.

(** A fresh domain in a world that answers [get_records] by [script] and
    has a hosted zone for the domain. *)
Definition fresh (n : string) (script : list (res (list DNS.record)))
  : State Sim.t :=
  Sim.start (Sim.new_domain n 0) (frame_of [n])
            (Sim.initial script
               (Ok [{| HostedZone.Name := n +:+ ".";
                       HostedZone.Id := "/hostedzone/Z1" |}])
               (Ok "/change/C1")).

(** ** Notions used for the methods and the loop *)

(** Every run of [m] relates the state it starts in to the state it
    leaves, whatever it returns or raises. *)
Definition keeps {S A : Type} (R : S -> S -> Prop) (m : M S A) : Prop :=
  forall s r s', m s = (r, s') -> R s s'.

(** What no method of [Domain] touches: the name and the index of the
    object, the data frame and the report. *)
Definition same_frame {W : Type} (st st' : State W) : Prop :=
  name (domain st') = name (domain st) /\
  index (domain st') = index (domain st) /\
  domains_data st' = domains_data st /\
  output_file st' = output_file st.

(** The domain object is the same: a method that only talks to a backend
    changes the client and the world at most. *)
Definition same_domain {W : Type} (st st' : State W) : Prop :=
  domain st' = domain st /\
  domains_data st' = domains_data st /\
  output_file st' = output_file st.

(** The data frame [df'] is [df] but for cells of row [i] in columns other
    than [Name]. *)
Definition only_row (i : nat) (df df' : DataFrame) : Prop :=
  length df' = length df /\
  (forall j, j <> i -> df' !! j = df !! j) /\
  (forall j, (df' !! j) ≫= (fun row => row !! "Name")
             = (df !! j) ≫= (fun row => row !! "Name")).

(** What the body of the processing loop leaves alone when it handles the
    domain of row [i]: the report, and the data frame but for that row. *)
Definition own_row {W : Type} (i : nat) (st st' : State W) : Prop :=
  output_file st' = output_file st /\
  only_row i (domains_data st) (domains_data st').

(** The domain object is [d] but for the cache, which holds no record. *)
Definition nothing_cached {W : Type} (d : Domain) (st : State W) : Prop :=
  name (domain st) = name d /\ index (domain st) = index d /\
  _r53_zone_id (domain st) = _r53_zone_id d /\
  truthy_list (_records (domain st)) = false.

(** The first character, if any, is not whitespace. *)
Definition clean_start (s : string) : Prop :=
  forall c s', s = String c s' -> isspace c = false.

(** The last character, if any, is not whitespace. *)
Definition clean_end (s : string) : Prop :=
  forall s' c, s = s' +:+ String c EmptyString -> isspace c = false.

(** The four cells that the loop fills in the row of a domain it has
    handled: each is [Yes] or [No], and the records are reported created
    exactly when the migration is reported required. *)
Definition filled (row : gmap string (option string)) : Prop :=
  exists has_dns required has_mx : bool,
    row !! "Has GoDaddy DNS" = Some (yes_no has_dns) /\
    row !! "Requires DNS Migration" = Some (yes_no required) /\
    row !! "AWS DNS Records Created" = Some (yes_no required) /\
    row !! "Supports Email" = Some (yes_no has_mx).

(** A string without line feed and carriage return. *)
Definition no_break (s : string) : Prop :=
  forall c, In c (list_ascii_of_string s) -> c <> LF /\ c <> CR.

(** ** More example data *)

(** Two domains of two [A] records each, without hosted zone, in a world
    that answers [change] to the change batches. *)
Definition two_domains : list Domain :=
  [Sim.new_domain "a.com" 0; Sim.new_domain "b.com" 1].

Definition two_domains_state (change : res string) : State Sim.t :=
  Sim.start (Sim.new_domain "b.com" 1) (frame_of ["a.com"; "b.com"])
            (Sim.initial [Ok www_zone; Ok www_zone] (Ok []) change).

(** The change that the apex [MX] record of priority 10 gives for
    [example.com]. *)
Definition mx_change : Change.t :=
  {| Change.Action := "UPSERT";
     Change.ResourceRecordSet :=
       {| ResourceRecordSet.Name := "example.com";
          ResourceRecordSet.Type_ := "MX";
          ResourceRecordSet.TTL := 3600;
          ResourceRecordSet.ResourceRecords :=
            [{| ResourceRecord.Value := "10 mail.example.com" |}] |} |}.

(** * Properties *)

(** Unfolding of the monad's operations. *)
Ltac unfold_monad :=
  unfold bind, ret, raise, try_except, get, modify, when,
    get_domain, set_domain, set__records, set_r53_zone_id in *.

(** ** The property [records] *)

Section RecordsProperty.
Context {W : Type} `{Services W}.

(** A list that is not empty is served from [_records]: no call, no
    change of state. *)
Lemma records_cached (st : State W) (l : list DNS.record) :
  _records (domain st) = Some l -> l <> [] -> records st = (Ok l, st).
Proof.
  intros Hc Hl. destruct l as [|r l]; [done|].
  unfold records. unfold_monad. rewrite Hc. simpl. by rewrite Hc.
Qed.

(** Whatever list the property returns is the one it leaves in
    [_records]. *)
Lemma records_result (st st1 : State W) (l : list DNS.record) :
  records st = (Ok l, st1) -> _records (domain st1) = Some l.
Proof.
  unfold records. unfold_monad.
  destruct (negb (truthy_list (_records (domain st)))) eqn:Ht.
  - unfold on_gd_client.
    destruct (GoDaddyClient.get_records _ _) as [[fetched|e] [c w]]; simpl.
    + intros [= <- <-]. done.
    + destruct e; simpl; intros [= <- <-]; done.
  - simpl. intros [= <- <-].
    destruct (_records (domain st)) as [[|r l]|]; done.
Qed.

(** Reading twice in a row: once a list that is not empty was read, the
    next read returns it and leaves the state alone. *)
Lemma records_again (st st1 : State W) (l : list DNS.record) :
  records st = (Ok l, st1) -> l <> [] -> records st1 = (Ok l, st1).
Proof. intros Hr Hl. apply records_cached; [by eapply records_result | done]. Qed.

Lemma fold_parked (l : list DNS.record) (b : bool) :
  fold_left (fun domain_parked record =>
               if is_parked_apex record then true else domain_parked) l b
  = b || existsb is_parked_apex l.
Proof.
  revert b. induction l as [|r l IH]; intros b; simpl.
  - by rewrite orb_false_r.
  - rewrite IH. destruct (is_parked_apex r), b; done.
Qed.

Lemma is_parked_apex_spec (r : DNS.record) :
  is_parked_apex r = true <->
  DNS.name r = "@" /\ DNS.type r = "A" /\ DNS.data r = "Parked".
Proof.
  unfold is_parked_apex. rewrite !andb_true_iff, !String.eqb_eq. tauto.
Qed.

(** What [requires_zone_migration] computes from the list it reads. *)
Lemma requires_zone_migration_eq (st st1 : State W) (l : list DNS.record) :
  records st = (Ok l, st1) ->
  requires_zone_migration st =
    (Ok (match l with
         | [] => false
         | _ => negb (existsb is_parked_apex l) || (length l <=? 6)%nat
         end), st1).
Proof.
  intros Hr. unfold requires_zone_migration, gd_dns_exists.
  unfold bind at 1 2. rewrite Hr.
  destruct l as [|r l]; [done|].
  assert (Hr1 := records_again _ _ _ Hr ltac:(done)).
  change (0 <? length (r :: l))%nat with true. cbn [negb ret].
  cbv beta iota. unfold bind at 1. rewrite Hr1.
  rewrite fold_parked. rewrite orb_false_l.
  destruct (existsb is_parked_apex (r :: l)); cbn [negb orb]; [|done].
  unfold bind. rewrite Hr1. by destruct (length (r :: l) <=? 6)%nat.
Qed.
End RecordsProperty.

(** C1.  Whatever the state, if reading the property [records] yields the
    list [l], then [requires_zone_migration] returns, and what it returns
    is [false] when [l] is empty and otherwise [true] exactly when [l] has
    no record with name [@], type [A] and data [Parked], or has at most 6
    records. *)
Theorem requires_zone_migration_spec {W : Type} `{Services W}
    (st st1 : State W) (l : list DNS.record) :
  records st = (Ok l, st1) ->
  exists b : bool,
    requires_zone_migration st = (Ok b, st1) /\
    (l = [] -> b = false) /\
    (l <> [] ->
     (b = true <->
      ~ (exists r, In r l /\ DNS.name r = "@" /\ DNS.type r = "A"
                   /\ DNS.data r = "Parked")
      \/ (length l <= 6)%nat)).
Proof.
  intros Hr. eexists. split; [by apply requires_zone_migration_eq|].
  split; [by intros ->|]. intros Hl.
  destruct l as [|r0 l]; [done|].
  rewrite orb_true_iff, negb_true_iff, Nat.leb_le.
  apply or_iff_compat_r. rewrite <- not_true_iff_false, existsb_exists.
  apply not_iff_compat. split.
  - intros (r & Hin & Hp). exists r. by rewrite <- is_parked_apex_spec.
  - intros (r & Hin & Hp). exists r. by rewrite is_parked_apex_spec.
Qed.

(** ** The body of the loop *)

(** Case analysis on the tests of [transform], one string comparison at a
    time, replacing a string by the literal it is found equal to. *)
Ltac eqb_cases :=
  repeat (simpl in *;
          match goal with
          | |- context [String.eqb ?a ?b] =>
              destruct (String.eqb_spec a b); try subst
          | |- context [match ?p with Some _ => _ | None => _ end] =>
              destruct p eqn:?
          | |- context [if ?b then _ else _] => destruct b eqn:?
          end).

Ltac unfold_transform :=
  unfold transform, get_priority, set_data, set_name, str_in; unfold_monad.

Lemma transform_fields (self_name : string) (r r' : DNS.record) (v : res bool) :
  transform self_name r = (v, r') ->
  DNS.type r' = DNS.type r /\ DNS.ttl r' = DNS.ttl r
  /\ DNS.priority r' = DNS.priority r.
Proof.
  destruct r as [n t d l p]. unfold_transform.
  eqb_cases; intros [= <- <-]; done.
Qed.

(** The body raises only on an [MX] record without priority. *)
Lemma transform_returns (self_name : string) (r : DNS.record) :
  (DNS.type r = "MX" -> is_Some (DNS.priority r)) ->
  exists b r', transform self_name r = (Ok b, r').
Proof.
  destruct r as [n t d l p]. unfold_transform. intros Hp.
  eqb_cases; eauto. all: by destruct Hp as [? [=]].
Qed.


Lemma transform_dropped_iff (self_name : string) (r r' : DNS.record) (b : bool) :
  transform self_name r = (Ok b, r') -> b = false <-> dropped r.
Proof.
  destruct r as [n t d l p]. unfold_transform. unfold dropped.
  eqb_cases; intros [= <- <-]; simpl;
    rewrite ?negb_true_iff, ?negb_false_iff, ?Nat.eqb_eq, ?Nat.eqb_neq in *; split; try done; intuition congruence.
Qed.



(** C6.  For a record that reaches the aggregation, the data the body
    leaves in it is: the domain's name for a [CNAME] whose data was [@];
    [76.223.105.230] for an [A] record whose data was [WebsiteBuilder Site];
    the priority, a space and the data for an [MX] record; the data between
    two double quotes for a [TXT] record; and the data as it was in every
    other case. *)
Theorem transform_data (self_name : string) (r r' : DNS.record) :
  transform self_name r = (Ok true, r') ->
  (DNS.type r = "CNAME" -> DNS.data r = "@" -> DNS.data r' = self_name) /\
  (DNS.type r = "A" -> DNS.data r = "WebsiteBuilder Site" ->
   DNS.data r' = "76.223.105.230") /\
  (DNS.type r = "MX" ->
   exists p, DNS.priority r = Some p /\
             DNS.data r' = str_of_int p +:+ " " +:+ DNS.data r) /\
  (DNS.type r = "TXT" -> DNS.data r' = dquote +:+ DNS.data r +:+ dquote) /\
  (~ (DNS.type r = "CNAME" /\ DNS.data r = "@") ->
   ~ (DNS.type r = "A" /\ DNS.data r = "WebsiteBuilder Site") ->
   DNS.type r <> "MX" -> DNS.type r <> "TXT" ->
   DNS.data r' = DNS.data r).
Proof.
  destruct r as [n t d l p]. unfold_transform.
  eqb_cases; intros [= <-]; simpl; repeat split; try done;
    try (intros; exfalso; intuition congruence); eauto.
Qed.

(** ** The loop and the aggregation *)

(** A loop that ends without exception has changed every record as the
    body does and has aggregated the survivors in order. *)
Lemma for_records_ok (self_name : string) (rs rs' : list DNS.record)
    (agg agg' : Aggregated) :
  for_records self_name rs agg = (Ok agg', rs') ->
  agg' = fold_left (fun a r' => aggregate r' a) (survivors self_name rs) agg
  /\ rs' = map (fun r => snd (transform self_name r)) rs.
Proof.
  revert agg agg' rs'. induction rs as [|r rs IH]; intros agg agg' rs'; simpl.
  - by intros [= <- <-].
  - destruct (transform self_name r) as [[[|]|e] r1] eqn:Ht; simpl; [| |done].
    + destruct (for_records self_name rs (aggregate r1 agg)) as [v rest] eqn:Hf.
      intros [= -> <-]. apply IH in Hf as [-> ->]. done.
    + destruct (for_records self_name rs agg) as [v rest] eqn:Hf.
      intros [= -> <-]. apply IH in Hf as [-> ->]. done.
Qed.

Lemma for_records_returns (self_name : string) (rs : list DNS.record)
    (agg : Aggregated) :
  Forall well_formed rs ->
  exists agg' rs', for_records self_name rs agg = (Ok agg', rs').
Proof.
  intros Hwf. revert agg. induction Hwf as [|r rs Hr _ IH]; intros agg; simpl.
  - eauto.
  - destruct (transform_returns self_name r Hr) as (b & r1 & ->).
    destruct b.
    + destruct (IH (aggregate r1 agg)) as (a & l & ->). eauto.
    + destruct (IH agg) as (a & l & ->). eauto.
Qed.


(** *** The aggregation *)

Lemma key_eqb_eq (k1 k2 : Key) : key_eqb k1 k2 = true <-> k1 = k2.
Proof.
  destruct k1, k2. unfold key_eqb. simpl.
  rewrite andb_true_iff, !String.eqb_eq. split; [by intros [-> ->]|by intros [= -> ->]].
Qed.

Lemma key_eqb_refl (k : Key) : key_eqb k k = true.
Proof. by apply key_eqb_eq. Qed.

Lemma key_eqb_neq (k1 k2 : Key) : key_eqb k1 k2 = false <-> k1 <> k2.
Proof. rewrite <- key_eqb_eq. by destruct (key_eqb k1 k2). Qed.

Lemma has_key_In (k : Key) (agg : Aggregated) :
  has_key k agg = true <-> In k (map fst agg).
Proof.
  unfold has_key. rewrite existsb_exists, in_map_iff. split.
  - intros (kv & Hin & Hk). apply key_eqb_eq in Hk. eauto.
  - intros (kv & <- & Hin). exists kv. by rewrite key_eqb_refl.
Qed.

Lemma append_value_keys (k : Key) (v : ResourceRecord.t) (agg : Aggregated) :
  map fst (append_value k v agg) = map fst agg.
Proof.
  unfold append_value. rewrite map_map. apply map_ext.
  intros kv. by destruct (key_eqb k (fst kv)).
Qed.

Lemma append_value_In (k : Key) (v : ResourceRecord.t) (agg : Aggregated)
    (k' : Key) (e : ResourceRecordSet.t) :
  In (k', e) (append_value k v agg) <->
  exists e0, In (k', e0) agg /\
             e = if key_eqb k k' then append v e0 else e0.
Proof.
  unfold append_value. rewrite in_map_iff. split.
  - intros ([k1 e1] & Heq & Hin). simpl in Heq.
    destruct (key_eqb k k1) eqn:Hk; injection Heq as <- <-;
      exists e1; by rewrite Hk.
  - intros (e0 & Hin & ->). exists (k', e0). split; [|done]. simpl.
    by destruct (key_eqb k k').
Qed.

Lemma represents_nil : represents [] [].
Proof. split; [constructor|]. split; [done|]. intros k e []. Qed.

Lemma with_key_app (k : Key) (l1 l2 : list DNS.record) :
  with_key k (l1 ++ l2) = with_key k l1 ++ with_key k l2.
Proof. apply List.filter_app. Qed.

Lemma with_key_absent (k : Key) (l : list DNS.record) :
  ~ In k (map key_of l) -> with_key k l = [].
Proof.
  induction l as [|r l IH]; simpl; [done|]. intros Hn.
  destruct (key_eqb k (key_of r)) eqn:Hk.
  - apply key_eqb_eq in Hk. destruct Hn. by left.
  - apply IH. intros Hin. destruct Hn. by right.
Qed.

Lemma represents_step (done : list DNS.record) (agg : Aggregated)
    (r : DNS.record) :
  represents done agg -> represents (done ++ [r]) (aggregate r agg).
Proof.
  intros (Hnd & Hkeys & Hent). unfold aggregate.
  fold (key_of r). fold (value_of r). set (k0 := key_of r).
  destruct (has_key k0 agg) eqn:Hhas; simpl.
  - (* the key is there: its binding gets one more value *)
    apply has_key_In in Hhas.
    split; [by rewrite append_value_keys|]. split.
    + intros k. rewrite append_value_keys, map_app, in_app_iff, Hkeys. simpl.
      split; [tauto|]. intros [?|[<-|[]]]; [done|]. by apply Hkeys.
    + intros k e (e0 & Hin & ->)%append_value_In.
      destruct (Hent k e0 Hin) as (Hn & Ht & Hrr & first & rest & Hf & Httl).
      rewrite with_key_app. simpl. fold k0.
      destruct (key_eqb k k0) eqn:Hk.
      * apply key_eqb_eq in Hk as ->. rewrite key_eqb_refl. simpl.
        repeat split; try done.
        -- by rewrite Hrr, map_app.
        -- exists first, (rest ++ [r]). by rewrite Hf.
      * assert (key_eqb k0 k = false) as ->
          by (apply key_eqb_neq; apply key_eqb_neq in Hk; congruence).
        rewrite app_nil_r. repeat split; try done. eauto.
  - (* a new key: a new binding at the end, with this one value *)
    assert (~ In k0 (map fst agg)) as Hnew
      by (rewrite <- has_key_In; congruence).
    split; [|split].
    + rewrite append_value_keys, map_app. simpl.
      apply NoDup_app. split; [done|]. split; [|apply NoDup_singleton].
      intros k Hin. rewrite list_elem_of_In in Hin. intros ->%list_elem_of_singleton. done.
    + intros k. rewrite append_value_keys, !map_app, !in_app_iff, Hkeys. done.
    + intros k e (e0 & Hin & ->)%append_value_In.
      rewrite with_key_app. simpl. fold k0.
      apply in_app_iff in Hin as [Hin|[[= <- <-]|[]]].
      * assert (k <> k0) as Hne
          by (intros ->; apply Hnew, in_map_iff; by exists (k0, e0)).
        assert (key_eqb k0 k = false) as -> by (apply key_eqb_neq; congruence).
        assert (key_eqb k k0 = false) as -> by (by apply key_eqb_neq).
        rewrite app_nil_r. by apply Hent.
      * rewrite key_eqb_refl. simpl.
        rewrite with_key_absent by (by rewrite <- Hkeys).
        repeat split. by exists r, [].
Qed.

Lemma represents_fold (todo done : list DNS.record) (agg : Aggregated) :
  represents done agg ->
  represents (done ++ todo) (fold_left (fun a r' => aggregate r' a) todo agg).
Proof.
  revert done agg. induction todo as [|r todo IH]; intros done agg Hrep; simpl.
  - by rewrite app_nil_r.
  - change (done ++ r :: todo) with (done ++ [r] ++ todo).
    rewrite app_assoc. apply IH, represents_step, Hrep.
Qed.

Lemma for_records_represents (self_name : string) (rs rs' : list DNS.record)
    (agg : Aggregated) :
  for_records self_name rs [] = (Ok agg, rs') ->
  represents (survivors self_name rs) agg.
Proof.
  intros [-> _]%for_records_ok.
  apply (represents_fold (survivors self_name rs) [] []), represents_nil.
Qed.

Lemma survivors_In (self_name : string) (rs : list DNS.record) (r' : DNS.record) :
  In r' (survivors self_name rs) <->
  exists r, In r rs /\ transform self_name r = (Ok true, r').
Proof.
  unfold survivors. rewrite in_flat_map. split.
  - intros (r & Hin & Hr). exists r. split; [done|].
    destruct (transform self_name r) as [[[|]|e] r1]; simpl in Hr; try done.
    by destruct Hr as [<-|[]].
  - intros (r & Hin & Ht). exists r. split; [done|]. rewrite Ht. by left.
Qed.

Lemma changes_of_In (agg : Aggregated) (c : Change.t) :
  In c (changes_of agg) <->
  exists k, In (k, Change.ResourceRecordSet c) agg /\ Change.Action c = "UPSERT".
Proof.
  unfold changes_of. rewrite map_map, in_map_iff. split.
  - intros ([k e] & <- & Hin). simpl. eauto.
  - intros (k & Hin & Ha). exists (k, Change.ResourceRecordSet c).
    split; [|done]. destruct c as [a e]. simpl in *. by subst.
Qed.

Lemma changes_of_keys (done : list DNS.record) (agg : Aggregated) :
  represents done agg -> map key_of_change (changes_of agg) = map fst agg.
Proof.
  intros (_ & _ & Hent). unfold changes_of. rewrite !map_map.
  apply map_ext_in. intros [k e] Hin. unfold key_of_change. simpl.
  destruct (Hent k e Hin) as (-> & -> & _). by destruct k.
Qed.

(** On a well-formed record the body does what the rules say: it drops
    the record when they drop it, and otherwise leaves it with the name and
    the data they give, its type, its TTL and its priority. *)
Lemma transform_spec (self_name : string) (r : DNS.record) :
  well_formed r ->
  if spec_dropped r
  then exists r', transform self_name r = (Ok false, r')
  else transform self_name r
       = (Ok true, {| DNS.name := spec_name self_name r;
                      DNS.type := DNS.type r;
                      DNS.data := spec_data self_name r;
                      DNS.ttl := DNS.ttl r;
                      DNS.priority := DNS.priority r |}).
Proof.
  destruct r as [n t d l p]. unfold well_formed. unfold_transform.
  unfold spec_dropped, spec_name, spec_data. intros Hp.
  eqb_cases; simpl; eauto; try done.
  all: by destruct Hp as [? [=]].
Qed.

Lemma survivors_spec (self_name : string) (records : list DNS.record) :
  Forall well_formed records ->
  survivors self_name records = spec_survivors self_name records.
Proof.
  unfold survivors, spec_survivors.
  induction 1 as [|r records Hr _ IH]; simpl; [done|].
  assert (Hspec := transform_spec self_name r Hr).
  destruct (spec_dropped r); simpl.
  - destruct Hspec as [r' ->]. done.
  - rewrite Hspec. simpl. by rewrite IH.
Qed.

(** C2, amended.  On a list of records in which every [MX] record has its
    priority, the loop ends without exception, and then, the surviving
    records being those that the rules of the specification keep, each
    under the domain's name when its name was [@] and under its old name,
    a dot and the domain's name otherwise: no two changes have the same
    name and type; every surviving record has a change with its final name
    and its type; and each change is an [UPSERT] whose values are the data
    of the surviving records with its name and type, in the order of the
    list, and whose TTL is the TTL of the first of them. *)
Theorem aggregation_spec (self_name : string) (records : list DNS.record) :
  Forall well_formed records ->
  exists aggregated_records records',
  for_records self_name records [] = (Ok aggregated_records, records') /\
  let kept := spec_survivors self_name records in
  let changes := changes_of aggregated_records in
  (forall r r', In r records -> transform self_name r = (Ok true, r') ->
     spec_dropped r = false /\
     DNS.name r' = (if DNS.name r == "@" then self_name
                    else DNS.name r +:+ "." +:+ self_name) /\
     DNS.type r' = DNS.type r /\ DNS.ttl r' = DNS.ttl r /\
     In r' kept) /\
  (forall r, In r records -> spec_dropped r = false ->
     exists r', transform self_name r = (Ok true, r')) /\
  NoDup (map key_of_change changes) /\
  (forall r', In r' kept ->
     exists c, In c changes /\ key_of_change c = key_of r') /\
  (forall c, In c changes ->
     Change.Action c = "UPSERT" /\
     ResourceRecordSet.ResourceRecords (Change.ResourceRecordSet c)
       = map value_of (with_key (key_of_change c) kept) /\
     exists first rest,
       with_key (key_of_change c) kept = first :: rest /\
       ResourceRecordSet.TTL (Change.ResourceRecordSet c) = DNS.ttl first).
Proof.
  intros Hwf.
  destruct (for_records_returns self_name records [] Hwf)
    as (aggregated_records & records' & Hloop).
  exists aggregated_records, records'. split; [done|]. intros kept changes.
  assert (Hrep := for_records_represents _ _ _ _ Hloop).
  rewrite (survivors_spec _ _ Hwf) in Hrep. fold kept in Hrep.
  assert (Hk := changes_of_keys _ _ Hrep).
  destruct Hrep as (Hnd & Hkeys & Hent).
  rewrite List.Forall_forall in Hwf.
  split; [|split].
  - intros r r' Hin Ht.
    assert (Hspec := transform_spec self_name r (Hwf r Hin)).
    destruct (spec_dropped r) eqn:Hdrop.
    + destruct Hspec as [r0 Hr0]. congruence.
    + rewrite Hspec in Ht. injection Ht as <-. simpl.
      repeat split. subst kept. unfold spec_survivors.
      apply in_map_iff. exists r. split; [done|].
      apply filter_In. by rewrite Hdrop.
  - intros r Hin Hdrop.
    assert (Hspec := transform_spec self_name r (Hwf r Hin)).
    rewrite Hdrop in Hspec. eauto.
  - split; [subst changes; by rewrite Hk|]. split.
    + intros r' Hin.
      assert (In (key_of r') (map key_of_change changes)) as Hc.
      { subst changes. rewrite Hk. apply Hkeys. by apply in_map. }
      apply in_map_iff in Hc as (c & Hc & Hin'). eauto.
    + intros c (k & Hin & Ha)%changes_of_In.
      destruct (Hent k _ Hin) as (Hn & Ht & Hrr & Hfirst).
      assert (key_of_change c = k) as ->
        by (unfold key_of_change; rewrite Hn, Ht; by destruct k).
      done.
Qed.

(** *** Counting the values of a change batch *)

Lemma values_of_cons (k : Key) (e : ResourceRecordSet.t) (agg : Aggregated) :
  values_of (changes_of ((k, e) :: agg))
  = ResourceRecordSet.ResourceRecords e ++ values_of (changes_of agg).
Proof. done. Qed.

Lemma values_of_app (agg1 agg2 : Aggregated) :
  values_of (changes_of (agg1 ++ agg2))
  = values_of (changes_of agg1) ++ values_of (changes_of agg2).
Proof.
  unfold values_of, changes_of. by rewrite !map_app, flat_map_app.
Qed.

Lemma append_value_absent (k : Key) (v : ResourceRecord.t) (agg : Aggregated) :
  ~ In k (map fst agg) -> append_value k v agg = agg.
Proof.
  induction agg as [|[k1 e1] agg IH]; simpl; [done|]. intros Hn.
  destruct (key_eqb k k1) eqn:Hk.
  - apply key_eqb_eq in Hk. destruct Hn. by left.
  - f_equal. apply IH. intros Hin. destruct Hn. by right.
Qed.

Lemma append_value_count (k : Key) (v : ResourceRecord.t) (agg : Aggregated) :
  NoDup (map fst agg) -> In k (map fst agg) ->
  length (values_of (changes_of (append_value k v agg)))
  = S (length (values_of (changes_of agg))).
Proof.
  induction agg as [|[k1 e1] agg IH]; [done|].
  cbn [map fst]. intros [Hk1 Hnd]%NoDup_cons Hin.
  change (append_value k v ((k1, e1) :: agg))
    with ((if key_eqb k k1 then (k1, append v e1) else (k1, e1))
          :: append_value k v agg).
  destruct (key_eqb k k1) eqn:Hk.
  - apply key_eqb_eq in Hk as ->.
    rewrite append_value_absent by (by rewrite <- list_elem_of_In).
    rewrite !values_of_cons, !length_app. cbn [append ResourceRecordSet.ResourceRecords].
    rewrite length_app. simpl. lia.
  - destruct Hin as [->|Hin]; [by rewrite key_eqb_refl in Hk|].
    rewrite !values_of_cons, !length_app, IH by done. lia.
Qed.

Lemma aggregate_count (done : list DNS.record) (agg : Aggregated) (r : DNS.record) :
  represents done agg ->
  length (values_of (changes_of (aggregate r agg)))
  = S (length (values_of (changes_of agg))).
Proof.
  intros (Hnd & _ & _). unfold aggregate.
  destruct (has_key _ agg) eqn:Hhas; simpl.
  - apply append_value_count; [done|by apply has_key_In].
  - assert (~ In (DNS.name r, DNS.type r) (map fst agg)) as Hnew
      by (rewrite <- has_key_In; congruence).
    unfold append_value. rewrite map_app. fold (append_value (DNS.name r, DNS.type r)
      {| ResourceRecord.Value := DNS.data r |} agg).
    rewrite append_value_absent by done. simpl. rewrite key_eqb_refl.
    rewrite !values_of_app, length_app. simpl. lia.
Qed.

Lemma survivors_app (self_name : string) (l1 l2 : list DNS.record) :
  survivors self_name (l1 ++ l2) = survivors self_name l1 ++ survivors self_name l2.
Proof. apply flat_map_app. Qed.

(** C5, amended.  In a list of records in which every [MX] record has its
    priority, the loop ends without exception
    before and after any record of the list; the record leaves the change
    batch as it was when its type is [SOA] or [NS], or its type is [A] and
    its data [Parked], or its type is [CNAME] and its name
    [_domainconnect], or its type is [SRV] and its data does not split on
    whitespace into 4 fields; in every other case the batch has exactly
    one value more. *)
Theorem drop_spec (self_name : string) (before : list DNS.record) (r : DNS.record) :
  Forall well_formed (before ++ [r]) ->
  exists agg agg' rs rs',
    for_records self_name before [] = (Ok agg, rs) /\
    for_records self_name (before ++ [r]) [] = (Ok agg', rs') /\
    let is_dropped :=
      DNS.type r = "SOA" \/ DNS.type r = "NS"
      \/ (DNS.type r = "A" /\ DNS.data r = "Parked")
      \/ (DNS.type r = "CNAME" /\ DNS.name r = "_domainconnect")
      \/ (DNS.type r = "SRV" /\ length (split (DNS.data r)) <> 4%nat) in
    (is_dropped -> changes_of agg' = changes_of agg) /\
    (~ is_dropped ->
     length (values_of (changes_of agg'))
     = S (length (values_of (changes_of agg)))).
Proof.
  intros Hwf.
  destruct (for_records_returns self_name _ [] Hwf) as (agg' & rs' & Hall).
  apply Forall_app in Hwf as [Hbefore Hr].
  destruct (for_records_returns self_name _ [] Hbefore) as (agg & rs & Hpre).
  exists agg, agg', rs, rs'. split; [done|]. split; [done|].
  assert (Hrep := for_records_represents _ _ _ _ Hpre).
  apply for_records_ok in Hall as [-> _]. apply for_records_ok in Hpre as [Hagg _].
  rewrite survivors_app, fold_left_app, <- Hagg.
  apply Forall_inv in Hr.
  destruct (transform_returns self_name r Hr) as (b & r1 & Ht).
  assert (Hd := transform_dropped_iff _ _ _ _ Ht). fold (dropped r).
  unfold survivors. simpl. rewrite Ht. destruct b; simpl.
  - split; [intros Hdrop; apply Hd in Hdrop; done|].
    intros _. by eapply aggregate_count.
  - split; [done|]. intros Hn. destruct Hn. by apply Hd.
Qed.

(** ** A second call of [r53_create_records] *)


Lemma append_dot_ne_at (n s : string) : n +:+ "." +:+ s <> "@".
Proof. destruct n as [|c [|c' n]]; simpl; discriminate. Qed.






Section SecondCall.
Context {W : Type} `{Services W}.

Lemma records_name (st st' : State W) (r : res (list DNS.record)) :
  records st = (r, st') -> name (domain st') = name (domain st).
Proof.
  unfold records. unfold_monad.
  destruct (negb (truthy_list (_records (domain st)))).
  - unfold on_gd_client.
    destruct (GoDaddyClient.get_records _ _) as [[fetched|e] [c w]]; simpl.
    + by intros [= <- <-].
    + destruct e; simpl; by intros [= <- <-].
  - simpl. by intros [= <- <-].
Qed.



(** The zone lookup and the submission leave the name and the cached
    records of the domain alone. *)
Lemma r53_zone_id_frame (st st' : State W) (r : res (option string)) :
  r53_zone_id st = (r, st') ->
  name (domain st') = name (domain st)
  /\ _records (domain st') = _records (domain st).
Proof.
  unfold r53_zone_id. unfold_monad.
  destruct (truthy_str (_r53_zone_id (domain st))); [by intros [= <- <-]|].
  unfold on_r53_client.
  destruct (list_hosted_zones_by_name _ _) as [[zones|e] w]; simpl.
  - destruct (matching_zone _ zones); simpl; by intros [= <- <-].
  - destruct e; simpl; by intros [= <- <-].
Qed.

End SecondCall.



(** ** Runs in the scripted world *)

(** The batch of the two [www] records for [example.com] is the one
    change [www_changes]; an apex [MX] record and an apex [TXT] record give
    the values [10 mail.example.com] and the text between double quotes;
    an [SRV] record with three fields gives no change. *)
Example transformer_examples :
  fst (r53_changes (fresh "example.com" [Ok www_zone])) = Ok www_changes /\
  map (fun c => (key_of_change c, values_of [c]))
      (changes_of
         (default [] (match fst (for_records "example.com"
                                  [mx_record; record_of "@" "TXT" "v=spf1 -all";
                                   record_of "_sip._tcp" "SRV" "10 20 5060"] [])
                      with Ok agg => Some agg | Raise _ => None end)))
  = [(("example.com", "MX"),
      [{| ResourceRecord.Value := "10 mail.example.com" |}]);
     (("example.com", "TXT"),
      [{| ResourceRecord.Value := dquote +:+ "v=spf1 -all" +:+ dquote |}])].
Proof. vm_compute. split; reflexivity. Qed.

(** A parked zone of seven records is not migrated. *)
Lemma requires_zone_migration_spec_witness :
  exists b : bool,
    requires_zone_migration (fresh "example.com" [Ok parked_zone])
    = (Ok b, snd (records (fresh "example.com" [Ok parked_zone]))) /\
    (parked_zone = [] -> b = false) /\
    (parked_zone <> [] ->
     (b = true <->
      ~ (exists r, In r parked_zone /\ DNS.name r = "@" /\ DNS.type r = "A"
                   /\ DNS.data r = "Parked")
      \/ (length parked_zone <= 6)%nat)).
Proof.
  apply (requires_zone_migration_spec (fresh "example.com" [Ok parked_zone])).
  vm_compute. reflexivity.
Defined.

(** C8, as stated, fails: the empty list has at most 6 records and no
    parked apex record, and [requires_zone_migration] returns [false] on
    it. *)
Lemma requires_zone_migration_empty_counterexample :
  ~ (forall (st st1 : State Sim.t) (l : list DNS.record),
       records st = (Ok l, st1) ->
       (length l <= 6)%nat ->
       ~ (exists r, In r l /\ DNS.name r = "@" /\ DNS.type r = "A"
                    /\ DNS.data r = "Parked") ->
       requires_zone_migration st = (Ok true, st1)).
Proof.
  intros Hclaim.
  specialize (Hclaim (fresh "example.com" [Ok []])
                (snd (records (fresh "example.com" [Ok []]))) []).
  assert (requires_zone_migration (fresh "example.com" [Ok []])
          = (Ok true, snd (records (fresh "example.com" [Ok []])))) as Habs.
  { apply Hclaim.
    - vm_compute. reflexivity.
    - simpl. lia.
    - intros (r & [] & _). }
  vm_compute in Habs. discriminate Habs.
Qed.

(** C8, amended.  If reading the property [records] yields a list that is
    not empty, has at most 6 records and has no record with name [@], type
    [A] and data [Parked], then [requires_zone_migration] returns
    [true]. *)
Theorem requires_zone_migration_small_zone {W : Type} `{Services W}
    (st st1 : State W) (l : list DNS.record) :
  records st = (Ok l, st1) ->
  l <> [] ->
  (length l <= 6)%nat ->
  ~ (exists r, In r l /\ DNS.name r = "@" /\ DNS.type r = "A"
               /\ DNS.data r = "Parked") ->
  requires_zone_migration st = (Ok true, st1).
Proof.
  intros Hr Hne Hlen Hpark.
  rewrite (requires_zone_migration_eq st st1 l Hr).
  destruct l as [|r0 l]; [done|].
  apply Nat.leb_le in Hlen. rewrite Hlen. by rewrite orb_true_r.
Qed.

(** A zone of two [A] records is migrated. *)
Lemma requires_zone_migration_small_zone_witness :
  requires_zone_migration (fresh "example.com" [Ok www_zone])
  = (Ok true, snd (records (fresh "example.com" [Ok www_zone]))).
Proof.
  apply (requires_zone_migration_small_zone
           (fresh "example.com" [Ok www_zone]) _ www_zone).
  - vm_compute. reflexivity.
  - discriminate.
  - simpl. lia.
  - intros (r & Hin & Hn & _). simpl in Hin.
    destruct Hin as [<-|[<-|[]]]; discriminate Hn.
Defined.

(** C7.  The first read of a domain for which the registrar answers
    [BadResponse] returns the empty list and stores it in [_records]; the
    second read calls the registrar again all the same, and returns what
    this second call answers. *)
Theorem records_empty_is_fetched_again :
  let st := fresh "example.com" [Raise BadResponse; Ok www_zone] in
  let '(r1, st1) := records st in
  let '(r2, st2) := records st1 in
  r1 = Ok [] /\ _records (domain st1) = Some [] /\
  map Sim.op (Sim.calls (world st1)) = ["get_records"] /\
  r2 = Ok www_zone /\
  map Sim.op (Sim.calls (world st2)) = ["get_records"; "get_records"].
Proof. vm_compute. repeat split. Qed.

(** The zone the lookup finds has exactly the domain's name and a dot as
    its name. *)
Lemma matching_zone_exact (self_name id : string) (zones : list HostedZone.t) :
  matching_zone self_name zones = Some id ->
  exists zone, In zone zones /\ HostedZone.Name zone = self_name +:+ "."
               /\ HostedZone.Id zone = id.
Proof.
  induction zones as [|zone zones IH]; simpl; [done|].
  destruct (String.eqb_spec (HostedZone.Name zone) (self_name +:+ ".")) as [Heq|_].
  - intros [= <-]. exists zone. auto.
  - intros (z & Hin & Hz)%IH. exists z. auto.
Qed.

(** C9.  With the zones of [example.com.au] and [example.com] in the
    answer, the lookup for [example.com] returns the id of the second; when
    the backend raises [InvalidInput] the lookup returns [None]; when it
    raises [InvalidDomainName] the lookup raises it too. *)
Theorem zone_lookup_invalid_domain_name :
  let lookup n answer :=
    fst (r53_zone_id (Sim.start (Sim.new_domain n 0) []
                                (Sim.initial [] answer (Ok "/change/C1")))) in
  lookup "example.com"
         (Ok [{| HostedZone.Name := "example.com.au.";
                 HostedZone.Id := "/hostedzone/Z2" |};
              {| HostedZone.Name := "example.com.";
                 HostedZone.Id := "/hostedzone/Z1" |}])
  = Ok (Some "/hostedzone/Z1") /\
  lookup "exa mple.com" (Raise InvalidInput) = Ok None /\
  lookup "exa mple.com" (Raise InvalidDomainName) = Raise InvalidDomainName.
Proof. vm_compute. repeat split. Qed.

(** A call made [wait_time] or more after [last_call_time] does not wait
    and leaves [last_call_time] as it is; the clock only going forward, so
    does every call after it. *)
Lemma wait_until_stale {W : Type} `{Services W} (c : GoDaddyClient.t) (w : W) :
  GoDaddyClient.wait_time <= datetime_now w - GoDaddyClient.last_call_time c ->
  GoDaddyClient._wait_until (c, w) = (Ok tt, (c, w)).
Proof.
  intros Hle. unfold GoDaddyClient._wait_until.
  apply Z.ltb_ge in Hle. by rewrite Hle.
Qed.

(** C4.  Times in microseconds, calls of no duration.  A client made at
    time 0 and called at once starts its call at 1 s; called again 1.2 s
    later and then once more at once, it starts both calls at 2.2 s,
    0 ms apart.  A client made at time 0 and first called 1.5 s later
    starts three calls in a row at 1.5 s: they take 0 ms, not 2000 ms. *)
Theorem throttle_is_lost_after_a_pause :
  let starts idle :=
    let w0 := Sim.initial [] (Ok []) (Ok "/change/C1") in
    map Sim.at_time
        (Sim.calls (snd (Sim.paced_calls idle (GoDaddyClient.__init__ w0, w0)))) in
  starts [0; 1200000; 0] = [1000000; 2200000; 2200000] /\
  starts [1500000; 0; 0] = [1500000; 1500000; 1500000].
Proof. vm_compute. split; reflexivity. Qed.

(** With a backend that accepts the change batches, the loop handles both
    domains and the report has their two rows. *)
Lemma run_without_failure :
  let domains := [Sim.new_domain "a.com" 0; Sim.new_domain "b.com" 1] in
  let st :=
    Sim.start (Sim.new_domain "b.com" 1) (frame_of ["a.com"; "b.com"])
              (Sim.initial [Ok www_zone; Ok www_zone] (Ok []) (Ok "/change/C1")) in
  let '(r, st') := processing_loop domains st in
  r = Ok tt /\
  option_map (map (fun row => row !! "AWS DNS Records Created")) (output_file st')
  = Some [Some (Some "Yes"); Some (Some "Yes")].
Proof. vm_compute. split; reflexivity. Qed.

(** C3.  Two domains, the first with two [A] records and no zone yet, and
    a backend that refuses the change batch: the loop ends with the
    exception of that call, no report is written, no call was made for the
    second domain and its row is as it was. *)
Theorem hard_failure_ends_the_run :
  let failure := OtherException "InvalidChangeBatch" in
  let domains := [Sim.new_domain "a.com" 0; Sim.new_domain "b.com" 1] in
  let st :=
    Sim.start (Sim.new_domain "b.com" 1) (frame_of ["a.com"; "b.com"])
              (Sim.initial [Ok www_zone; Ok www_zone] (Ok []) (Raise failure)) in
  let '(r, st') := processing_loop domains st in
  r = Raise failure /\
  output_file st' = None /\
  map Sim.arg (Sim.calls (world st'))
  = ["a.com"; "a.com"; "a.com"; "/hostedzone/Z1"] /\
  domains_data st' !! 1%nat = Some {[ "Name" := Some "b.com" ]}.
Proof. vm_compute. repeat split. Qed.

(** The two [www] records of [www_zone] for [example.com]: the batch has
    a change for [www.example.com] and [A], with the two addresses in
    order and the TTL of the first record. *)
Lemma aggregation_spec_witness :
  exists aggregated_records records',
    for_records "example.com" www_zone [] = (Ok aggregated_records, records') /\
    NoDup (map key_of_change (changes_of aggregated_records)) /\
    exists c,
      In c (changes_of aggregated_records) /\
      Change.Action c = "UPSERT" /\
      key_of_change c = ("www.example.com", "A") /\
      ResourceRecordSet.ResourceRecords (Change.ResourceRecordSet c)
      = [{| ResourceRecord.Value := "1.2.3.4" |};
         {| ResourceRecord.Value := "5.6.7.8" |}] /\
      ResourceRecordSet.TTL (Change.ResourceRecordSet c) = 600.
Proof.
  destruct (aggregation_spec "example.com" www_zone)
    as (agg & rs & Hloop & _ & _ & Hnodup & Hsome & Hchanges).
  - repeat constructor; discriminate.
  - exists agg, rs. split; [exact Hloop|]. split; [exact Hnodup|].
    destruct (Hsome {| DNS.name := "www.example.com"; DNS.type := "A";
                       DNS.data := "1.2.3.4"; DNS.ttl := 600;
                       DNS.priority := None |}) as (c & Hc & Hkey).
    + vm_compute. left. reflexivity.
    + change (key_of _) with ("www.example.com", "A") in Hkey.
      exists c. split; [exact Hc|].
      destruct (Hchanges c Hc)
        as (Haction & Hvalues & first & rest & Hfirst & Httl).
      rewrite Hkey in Hvalues, Hfirst.
      split; [exact Haction|]. split; [exact Hkey|].
      split; [rewrite Hvalues; vm_compute; reflexivity|].
      rewrite Httl. vm_compute in Hfirst. injection Hfirst as <- _. reflexivity.
Defined.

(** C2, as stated, fails on a list with an [MX] record that has no
    priority: the first record is an [A] record that the rules keep, but
    reading the priority of the second is a [KeyError], the loop ends there
    and no batch is built. *)
Lemma aggregation_missing_priority_counterexample :
  let records :=
    [a_record "www" "1.2.3.4"; record_of "@" "MX" "mail.example.com"] in
  spec_dropped (a_record "www" "1.2.3.4") = false /\
  fst (for_records "example.com" records []) = Raise (KeyError "priority") /\
  fst (r53_changes (fresh "example.com" [Ok records]))
  = Raise (KeyError "priority") /\
  ~ (exists aggregated_records records',
       for_records "example.com" records [] = (Ok aggregated_records, records')).
Proof.
  cbv zeta. split; [vm_compute; reflexivity|].
  split; [vm_compute; reflexivity|]. split; [vm_compute; reflexivity|].
  intros (agg & rs & Habs). vm_compute in Habs. discriminate Habs.
Qed.

(** An [SRV] record with three fields after the two [www] records. *)
Lemma drop_spec_witness :
  exists agg agg' rs rs',
    for_records "example.com" www_zone [] = (Ok agg, rs) /\
    for_records "example.com"
                (www_zone ++ [record_of "_sip._tcp" "SRV" "10 20 5060"]) []
    = (Ok agg', rs') /\
    changes_of agg' = changes_of agg.
Proof.
  destruct (drop_spec "example.com" www_zone
              (record_of "_sip._tcp" "SRV" "10 20 5060"))
    as (agg & agg' & rs & rs' & Hbefore & Hafter & Hdrop & _).
  - repeat constructor; discriminate.
  - exists agg, agg', rs, rs'. split; [exact Hbefore|]. split; [exact Hafter|].
    apply Hdrop. right. right. right. right. split; [reflexivity|].
    vm_compute. discriminate.
Defined.

(** C5, as stated, fails on an [MX] record that has no priority: it is
    in none of the cases in which a record is dropped, and it gives no
    value: reading its priority is a [KeyError], which ends the loop
    without a batch. *)
Lemma drop_missing_priority_counterexample :
  let r := record_of "@" "MX" "mail.example.com" in
  ~ (DNS.type r = "SOA" \/ DNS.type r = "NS"
     \/ (DNS.type r = "A" /\ DNS.data r = "Parked")
     \/ (DNS.type r = "CNAME" /\ DNS.name r = "_domainconnect")
     \/ (DNS.type r = "SRV" /\ length (split (DNS.data r)) <> 4%nat)) /\
  fst (for_records "example.com" [r] []) = Raise (KeyError "priority") /\
  fst (r53_changes (fresh "example.com" [Ok [r]])) = Raise (KeyError "priority").
Proof.
  cbv zeta. split.
  - simpl. intros [H|[H|[[H _]|[[H _]|[H _]]]]]; discriminate H.
  - split; vm_compute; reflexivity.
Qed.

(** The [MX] record of priority 10. *)
Lemma transform_data_witness :
  exists p, DNS.priority mx_record = Some p /\
            DNS.data (snd (transform "example.com" mx_record))
            = str_of_int p +:+ " " +:+ DNS.data mx_record.
Proof.
  destruct (transform_data "example.com" mx_record
              (snd (transform "example.com" mx_record)))
    as (_ & _ & Hmx & _).
  - vm_compute. reflexivity.
  - apply Hmx. reflexivity.
Defined.

(** Were [@] the name of the domain, the rewriting of the apex would leave
    the name [@] of a record as it is. *)
Lemma second_call_at_sign :
  let st := fresh "@" [Ok [a_record "@" "1.2.3.4"]] in
  let '(response, st2) := r53_create_records st in
  response = Ok "/change/C1" /\
  exists changes,
    fst (r53_changes st) = Ok changes /\
    changes <> [] /\
    _records (domain st2) = Some [a_record "@" "1.2.3.4"] /\
    fst (r53_changes st2) = Ok changes.
Proof.
  vm_compute. split; [reflexivity|]. eexists. split; [reflexivity|].
  split; [discriminate|]. split; reflexivity.
Qed.


(** * Further properties of the script *)

(** ** Relations kept by a computation *)

Section Keeps.
Context {S : Type} (R : S -> S -> Prop).
Hypothesis R_refl : forall s, R s s.
Hypothesis R_trans : forall s1 s2 s3, R s1 s2 -> R s2 s3 -> R s1 s3.

Lemma keeps_ret {A} (a : A) : keeps R (ret a).
Proof using R_refl. intros s r s' [= <- <-]. apply R_refl. Qed.

Lemma keeps_raise {A} (e : exn) : keeps R (@raise S A e).
Proof using R_refl. intros s r s' [= <- <-]. apply R_refl. Qed.

Lemma keeps_bind {A B} (m : M S A) (k : A -> M S B) :
  keeps R m -> (forall a, keeps R (k a)) -> keeps R (bind m k).
Proof using R_trans.
  intros Hm Hk s r s'. unfold bind.
  destruct (m s) as [[a|e] s1] eqn:Hms.
  - intros Hks. eapply R_trans; [by eapply Hm|by eapply Hk].
  - intros [= <- <-]. by eapply Hm.
Qed.

Lemma keeps_try_except {A} (body : M S A) (handler : exn -> option (M S A)) :
  keeps R body -> (forall e h, handler e = Some h -> keeps R h) ->
  keeps R (try_except body handler).
Proof using R_trans.
  intros Hb Hh s r s'. unfold try_except.
  destruct (body s) as [[a|e] s1] eqn:Hbs.
  - intros [= <- <-]. by eapply Hb.
  - destruct (handler e) as [h|] eqn:He.
    + intros Hhs. eapply R_trans; [by eapply Hb|by eapply Hh].
    + intros [= <- <-]. by eapply Hb.
Qed.
End Keeps.

Lemma keeps_weaken {S A : Type} (R R' : S -> S -> Prop) (m : M S A) :
  (forall s s', R s s' -> R' s s') -> keeps R m -> keeps R' m.
Proof. intros Hsub Hm s r s' Hrun. by eapply Hsub, Hm. Qed.

(** Closing a goal [keeps R m] along the structure of [m]. *)
Ltac keeps_step R_refl R_trans :=
  first
    [ apply (keeps_bind _ R_trans); [|intros ?]
    | apply (keeps_try_except _ R_trans)
    | apply (keeps_ret _ R_refl)
    | apply (keeps_raise _ R_refl) ].

(** ** What the methods of [Domain] leave alone *)

Section Frame.
Context {W : Type} `{Services W}.

Lemma same_frame_refl (st : State W) : same_frame st st.
Proof. by repeat split. Qed.

Lemma same_frame_trans (s1 s2 s3 : State W) :
  same_frame s1 s2 -> same_frame s2 s3 -> same_frame s1 s3.
Proof.
  intros (? & ? & ? & ?) (? & ? & ? & ?). repeat split; congruence.
Qed.

Lemma same_domain_refl (st : State W) : same_domain st st.
Proof. by repeat split. Qed.

Lemma same_domain_trans (s1 s2 s3 : State W) :
  same_domain s1 s2 -> same_domain s2 s3 -> same_domain s1 s3.
Proof. intros (? & ? & ?) (? & ? & ?). repeat split; congruence. Qed.

Lemma same_domain_frame (st st' : State W) :
  same_domain st st' -> same_frame st st'.
Proof. intros (Hd & ? & ?). unfold same_frame. by rewrite Hd. Qed.

Lemma keeps_get_domain : keeps (@same_domain W) get_domain.
Proof. intros st r st' [= <- <-]. apply same_domain_refl. Qed.

Lemma keeps_on_gd_client {A} (m : M (GoDaddyClient.t * W) A) :
  keeps (@same_domain W) (on_gd_client m).
Proof.
  intros st r st'. unfold on_gd_client.
  destruct (m _) as [r1 [c w]]. by intros [= <- <-].
Qed.

Lemma keeps_on_r53_client {A} (op : W -> res A * W) :
  keeps (@same_domain W) (on_r53_client op).
Proof.
  intros st r st'. unfold on_r53_client.
  destruct (op _) as [r1 w]. by intros [= <- <-].
Qed.

Lemma keeps_set__records (value : option (list DNS.record)) :
  keeps (@same_frame W) (set__records value).
Proof. by intros st r st' [= <- <-]. Qed.

Lemma keeps_set_r53_zone_id (value : option string) :
  keeps (@same_frame W) (set_r53_zone_id value).
Proof. by intros st r st' [= <- <-]. Qed.

Ltac frame_step :=
  first
    [ apply keeps_set__records
    | apply keeps_set_r53_zone_id
    | apply (keeps_weaken same_domain same_frame _ same_domain_frame);
      first [ apply keeps_get_domain | apply keeps_on_gd_client
            | apply keeps_on_r53_client ]
    | keeps_step same_frame_refl same_frame_trans ].

Lemma keeps_records : keeps (@same_frame W) records.
Proof.
  unfold records. repeat frame_step.
  - destruct (negb _); repeat frame_step.
  - intros e h. destruct e; intros [= <-]. repeat frame_step.
Qed.

Lemma keeps_r53_zone_id : keeps (@same_frame W) r53_zone_id.
Proof.
  unfold r53_zone_id. repeat frame_step.
  destruct (truthy_str _); repeat frame_step.
  - destruct (matching_zone _ _); repeat frame_step.
  - intros e h. destruct e; intros [= <-]. repeat frame_step.
Qed.
Ltac frame_method :=
  first [ apply keeps_records | apply keeps_r53_zone_id | frame_step ].

Lemma keeps_gd_dns_exists : keeps (@same_frame W) gd_dns_exists.
Proof.
  unfold gd_dns_exists. repeat frame_method.
  destruct (0 <? _)%nat; frame_step.
Qed.

Lemma keeps_requires_zone_migration :
  keeps (@same_frame W) requires_zone_migration.
Proof.
  unfold requires_zone_migration.
  apply (keeps_bind _ same_frame_trans); [apply keeps_gd_dns_exists|].
  intros exists_. destruct (negb exists_); repeat frame_method.
  destruct (negb _); repeat frame_method.
  destruct (_ <=? _)%nat; frame_step.
Qed.

Lemma keeps_has_mx_records : keeps (@same_frame W) has_mx_records.
Proof. unfold has_mx_records. repeat frame_method. Qed.

Lemma keeps_r53_zone_exists : keeps (@same_frame W) r53_zone_exists.
Proof.
  unfold r53_zone_exists. repeat frame_method.
  destruct (truthy_str _); frame_step.
Qed.

Lemma keeps_r53_get_nameservers : keeps (@same_frame W) r53_get_nameservers.
Proof.
  unfold r53_get_nameservers. repeat frame_method.
  intros e h [= <-]. frame_step.
Qed.

Lemma keeps_r53_create_zone : keeps (@same_frame W) r53_create_zone.
Proof.
  unfold r53_create_zone. repeat frame_method.
  intros e h [= <-]. frame_step.
Qed.

Lemma keeps_gd_update_nameservers (nameservers : list string) :
  keeps (@same_domain W) (gd_update_nameservers nameservers).
Proof.
  unfold gd_update_nameservers.
  apply (keeps_try_except _ same_domain_trans).
  - apply (keeps_bind _ same_domain_trans); [apply keeps_get_domain|].
    intros self. apply (keeps_bind _ same_domain_trans);
      [apply keeps_on_gd_client|].
    intros _. apply (keeps_ret _ same_domain_refl).
  - intros e h [= <-]. apply (keeps_ret _ same_domain_refl).
Qed.

Lemma keeps_r53_changes : keeps (@same_frame W) r53_changes.
Proof.
  unfold r53_changes. repeat frame_method.
  destruct (for_records _ _ _) as [[agg|e] rs]; repeat frame_method.
Qed.

Lemma keeps_r53_create_records : keeps (@same_frame W) r53_create_records.
Proof.
  unfold r53_create_records.
  apply (keeps_bind _ same_frame_trans); [apply keeps_r53_changes|].
  intros changes. repeat frame_method.
Qed.

(** *** The rows of the data frame *)

Lemma own_row_refl (i : nat) (st : State W) : own_row i st st.
Proof. by repeat split. Qed.

Lemma own_row_trans (i : nat) (s1 s2 s3 : State W) :
  own_row i s1 s2 -> own_row i s2 s3 -> own_row i s1 s3.
Proof.
  intros (Ho1 & Hl1 & Hj1 & Hn1) (Ho2 & Hl2 & Hj2 & Hn2).
  split; [congruence|]. split; [congruence|]. split.
  - intros j Hj. by rewrite Hj2, Hj1.
  - intros j. by rewrite Hn2, Hn1.
Qed.

Lemma same_frame_own_row (i : nat) (st st' : State W) :
  same_frame st st' -> own_row i st st'.
Proof. intros (_ & _ & Hd & Ho). split; [done|]. rewrite Hd. by repeat split. Qed.

Lemma keeps_set_domain (i : nat) (d : Domain) :
  keeps (@own_row W i) (set_domain d).
Proof. intros st r st' [= <- <-]. by repeat split. Qed.

Lemma keeps_at_set (i : nat) (column : string) (value : option string) :
  column <> "Name" -> keeps (@own_row W i) (at_set i column value).
Proof.
  intros Hcol st r st' [= <- <-]. split; [done|]. cbn [domains_data]. unfold only_row, DataFrame in *.
  split; [by rewrite length_alter|]. split.
  - intros j Hj. by rewrite list_lookup_alter_ne.
  - intros j. destruct (decide (j = i)) as [->|Hj].
    + rewrite list_lookup_alter_eq. destruct (_ !! i) as [row|]; [|done].
      simpl. by rewrite lookup_insert_ne.
    + by rewrite list_lookup_alter_ne.
Qed.
End Frame.

(** X1.  No method of [Domain] changes the name or the index of the
    object, the data frame or the report, whatever it returns or raises;
    [gd_update_nameservers] changes nothing of the object at all. *)
Theorem methods_frame {W : Type} `{Services W} :
  keeps (@same_frame W) records /\
  keeps (@same_frame W) r53_zone_id /\
  keeps (@same_frame W) gd_dns_exists /\
  keeps (@same_frame W) requires_zone_migration /\
  keeps (@same_frame W) has_mx_records /\
  keeps (@same_frame W) r53_zone_exists /\
  keeps (@same_frame W) r53_get_nameservers /\
  keeps (@same_frame W) r53_create_zone /\
  keeps (@same_frame W) r53_create_records /\
  forall nameservers,
    keeps (@same_domain W) (gd_update_nameservers nameservers).
Proof.
  split; [apply keeps_records|]. split; [apply keeps_r53_zone_id|].
  split; [apply keeps_gd_dns_exists|].
  split; [apply keeps_requires_zone_migration|].
  split; [apply keeps_has_mx_records|]. split; [apply keeps_r53_zone_exists|].
  split; [apply keeps_r53_get_nameservers|].
  split; [apply keeps_r53_create_zone|].
  split; [apply keeps_r53_create_records|apply keeps_gd_update_nameservers].
Qed.

(** ** The processing loop and the rows of the report *)

Section Rows.
Context {W : Type} `{Services W}.

Ltac row_step i :=
  first
    [ apply (keeps_set_domain i)
    | apply (keeps_at_set i); discriminate
    | apply (keeps_weaken same_frame (own_row i) _ (same_frame_own_row i));
      first [ apply keeps_gd_dns_exists | apply keeps_requires_zone_migration
            | apply keeps_has_mx_records | apply keeps_r53_zone_exists
            | apply keeps_r53_get_nameservers | apply keeps_r53_create_zone
            | apply keeps_r53_create_records | apply keeps_r53_zone_id
            | apply (keeps_weaken same_domain same_frame _ same_domain_frame);
              apply keeps_gd_update_nameservers ]
    | keeps_step (own_row_refl (W:=W) i) (own_row_trans (W:=W) i) ].

Lemma keeps_process (d : Domain) : keeps (@own_row W (index d)) (process d).
Proof.
  unfold process, yes_no.
  repeat first
    [ row_step (index d)
    | match goal with
      | |- keeps _ (if ?b then _ else _) => destruct b
      | |- keeps _ (match ?l with [] => _ | _ :: _ => _ end) => destruct l
      end ].
Qed.

(** What the loop over [domains] leaves alone. *)
Lemma keeps_for_domains (domains : list Domain) :
  keeps (fun st st' : State W =>
           output_file st' = output_file st /\
           length (domains_data st') = length (domains_data st) /\
           (forall j, ~ In j (map index domains) ->
                      domains_data st' !! j = domains_data st !! j) /\
           (forall j, (domains_data st' !! j) ≫= (fun row => row !! "Name")
                      = (domains_data st !! j) ≫= (fun row => row !! "Name")))
        (for_domains domains).
Proof.
  induction domains as [|d domains IH]; simpl.
  - by intros st r st' [= <- <-].
  - intros st r st'. unfold bind.
    destruct (process d st) as [[[]|e] st1] eqn:Hp;
      apply keeps_process in Hp as (Ho & Hl & Hj & Hn).
    + intros (Ho' & Hl' & Hj' & Hn')%IH.
      split; [congruence|]. split; [congruence|]. split.
      * intros j Hnot. simpl in Hnot.
        rewrite Hj', Hj; [done|intuition congruence|tauto].
      * intros j. by rewrite Hn', Hn.
    + intros [= <- <-]. split; [done|]. split; [done|]. split; [|done].
      intros j Hnot. simpl in Hnot. apply Hj. intuition congruence.
Qed.
End Rows.

(** X2.  Handling one domain touches no row of the data frame but the row
    of the domain's index, leaves the number of rows and the [Name] cell of
    every row as they were, and does not write the report, whatever the
    outcome. *)
Theorem process_own_row {W : Type} `{Services W} (d : Domain)
    (st st' : State W) (r : res unit) :
  process d st = (r, st') ->
  output_file st' = output_file st /\
  length (domains_data st') = length (domains_data st) /\
  (forall j, j <> index d -> domains_data st' !! j = domains_data st !! j) /\
  (forall j, (domains_data st' !! j) ≫= (fun row => row !! "Name")
             = (domains_data st !! j) ≫= (fun row => row !! "Name")).
Proof. intros Hp. by apply keeps_process in Hp. Qed.

(** The first of two domains, with a backend that refuses its batch. *)
Lemma process_own_row_witness :
  let st := two_domains_state (Raise (OtherException "InvalidChangeBatch")) in
  let st' := snd (process (Sim.new_domain "a.com" 0) st) in
  output_file st' = output_file st /\
  length (domains_data st') = length (domains_data st) /\
  (forall j, j <> 0%nat -> domains_data st' !! j = domains_data st !! j) /\
  (forall j, (domains_data st' !! j) ≫= (fun row => row !! "Name")
             = (domains_data st !! j) ≫= (fun row => row !! "Name")).
Proof.
  apply (process_own_row (Sim.new_domain "a.com" 0)
           (two_domains_state (Raise (OtherException "InvalidChangeBatch")))
           _ (Raise (OtherException "InvalidChangeBatch"))).
  vm_compute. reflexivity.
Defined.

(** X3.  The processing loop writes the report exactly when it ends
    without exception, and what it writes is the data frame as the loop
    left it; in either case the data frame has the rows it had, each with
    its [Name] cell, and a row that is the index of no domain is as it
    was. *)
Theorem processing_loop_report {W : Type} `{Services W}
    (domains : list Domain) (st st' : State W) (r : res unit) :
  processing_loop domains st = (r, st') ->
  match r with
  | Ok _ => output_file st' = Some (domains_data st')
  | Raise _ => output_file st' = output_file st
  end /\
  length (domains_data st') = length (domains_data st) /\
  (forall j, ~ In j (map index domains) ->
             domains_data st' !! j = domains_data st !! j) /\
  (forall j, (domains_data st' !! j) ≫= (fun row => row !! "Name")
             = (domains_data st !! j) ≫= (fun row => row !! "Name")).
Proof.
  unfold processing_loop, bind.
  destruct (for_domains domains st) as [[[]|e] st1] eqn:Hloop;
    apply keeps_for_domains in Hloop as (Ho & Hl & Hj & Hn).
  - intros [= <- <-]. done.
  - intros [= <- <-]. done.
Qed.

(** Two domains and a backend that accepts the batches: the report is the
    data frame at the end. *)
Lemma processing_loop_report_witness :
  let st := two_domains_state (Ok "/change/C1") in
  let st' := snd (processing_loop two_domains st) in
  output_file st' = Some (domains_data st') /\
  length (domains_data st') = 2%nat.
Proof.
  destruct (processing_loop_report two_domains
              (two_domains_state (Ok "/change/C1"))
              (snd (processing_loop two_domains
                      (two_domains_state (Ok "/change/C1"))))
              (Ok tt)) as (Hout & Hlen & _).
  - vm_compute. reflexivity.
  - split; [exact Hout|exact Hlen].
Defined.

(** ** The throttled client *)

(** X4.  If [sleep] lets at least the time asked for pass, a call through
    the client reaches the registrar no earlier than [wait_time] after
    [last_call_time]: [_wait_until] ends at such a time, either having
    done nothing or having set [last_call_time] to that time, and
    [get_records] and [update_domain] then call the registrar from
    there. *)
Theorem wait_until_spacing {W : Type} `{Services W}
    (c : GoDaddyClient.t) (w : W) :
  (forall d w0, 0 < d -> datetime_now w0 + d <= datetime_now (sleep d w0)) ->
  exists c' w',
    GoDaddyClient._wait_until (c, w) = (Ok tt, (c', w')) /\
    GoDaddyClient.last_call_time c + GoDaddyClient.wait_time <= datetime_now w' /\
    ((c' = c /\ w' = w) \/ GoDaddyClient.last_call_time c' = datetime_now w') /\
    (forall domain,
       GoDaddyClient.get_records domain (c, w)
       = (fst (client_get_records domain w'),
          (c', snd (client_get_records domain w')))) /\
    (forall domain nameServers,
       GoDaddyClient.update_domain domain nameServers (c, w)
       = (fst (client_update_domain domain nameServers w'),
          (c', snd (client_update_domain domain nameServers w')))).
Proof.
  intros Hsleep.
  unfold GoDaddyClient.get_records, GoDaddyClient.update_domain, bind.
  unfold GoDaddyClient._wait_until.
  destruct (Z.ltb_spec (datetime_now w - GoDaddyClient.last_call_time c)
              GoDaddyClient.wait_time) as [Hlt|Hge].
  - eexists _, _. split; [reflexivity|]. split.
    + specialize (Hsleep (GoDaddyClient.wait_time
                          - (datetime_now w - GoDaddyClient.last_call_time c)) w).
      lia.
    + split; [by right|]. split.
      * intros domain. by destruct (client_get_records domain _).
      * intros domain ns. by destruct (client_update_domain domain ns _).
  - exists c, w. split; [reflexivity|]. split; [lia|].
    split; [by left|]. split.
    + intros domain. by destruct (client_get_records domain _).
    + intros domain ns. by destruct (client_update_domain domain ns _).
Qed.

(** A client made at time 0 and called at once, in the scripted world. *)
Lemma wait_until_spacing_witness :
  let w := Sim.initial [] (Ok []) (Ok "/change/C1") in
  exists c' w',
    GoDaddyClient._wait_until (GoDaddyClient.__init__ w, w) = (Ok tt, (c', w')) /\
    GoDaddyClient.wait_time <= datetime_now w'.
Proof.
  set (w := Sim.initial [] (Ok []) (Ok "/change/C1")). simpl.
  destruct (wait_until_spacing (GoDaddyClient.__init__ w) w)
    as (c' & w' & Hrun & Hspace & _).
  - intros d w0 _. simpl. lia.
  - exists c', w'. split; [exact Hrun|exact Hspace].
Defined.

(** X5.  A client whose [last_call_time] is [wait_time] or more in the
    past is not throttled, and stays so: if the clock does not go back
    while the registrar answers, [get_records] passes the call on at once,
    leaves the client as it is, and [last_call_time] is still [wait_time]
    or more in the past when the call returns. *)
Theorem stale_client_stays_stale {W : Type} `{Services W}
    (c : GoDaddyClient.t) (w : W) (domain : string) :
  GoDaddyClient.wait_time <= datetime_now w - GoDaddyClient.last_call_time c ->
  datetime_now w <= datetime_now (snd (client_get_records domain w)) ->
  exists r w',
    client_get_records domain w = (r, w') /\
    GoDaddyClient.get_records domain (c, w) = (r, (c, w')) /\
    GoDaddyClient.wait_time <= datetime_now w' - GoDaddyClient.last_call_time c.
Proof.
  intros Hstale Hclock.
  destruct (client_get_records domain w) as [r w'] eqn:Hcall.
  exists r, w'. split; [done|]. split; [|simpl in Hclock; lia].
  unfold GoDaddyClient.get_records, bind.
  rewrite (wait_until_stale c w Hstale). by rewrite Hcall.
Qed.

(** A client made at time 0 and first called 1.5 s later. *)
Lemma stale_client_stays_stale_witness :
  let w0 := Sim.initial [] (Ok []) (Ok "/change/C1") in
  let w := Sim.elapse 1500000 w0 in
  exists r w',
    GoDaddyClient.get_records "example.com" (GoDaddyClient.__init__ w0, w)
    = (r, (GoDaddyClient.__init__ w0, w')) /\
    datetime_now w' = 1500000.
Proof.
  set (w0 := Sim.initial [] (Ok []) (Ok "/change/C1")).
  set (w := Sim.elapse 1500000 w0). simpl.
  destruct (stale_client_stays_stale (GoDaddyClient.__init__ w0) w "example.com")
    as (r & w' & Hcall & Hrun & _).
  - vm_compute. discriminate.
  - vm_compute. discriminate.
  - exists r, w'. split; [exact Hrun|].
    vm_compute in Hcall. by injection Hcall as <- <-.
Defined.

(** ** What the properties and the adapters return *)

(** X6.  The property [records] never raises [BadResponse]; when it raises
    anything else, nothing was cached before and the domain object is as
    it was. *)
Theorem records_raises {W : Type} `{Services W} (st st' : State W) (e : exn) :
  records st = (Raise e, st') ->
  e <> BadResponse /\
  truthy_list (_records (domain st)) = false /\
  domain st' = domain st.
Proof.
  unfold records. unfold_monad.
  destruct (truthy_list (_records (domain st))) eqn:Ht; simpl; [done|].
  unfold on_gd_client.
  destruct (GoDaddyClient.get_records _ _) as [[fetched|e0] [c w]]; simpl; [done|].
  destruct e0; simpl; intros Heq; try done; by injection Heq as <- <-.
Qed.

(** A registrar that cannot be reached. *)
Lemma records_raises_witness :
  let st := fresh "example.com" [Raise (OtherException "ConnectionError")] in
  OtherException "ConnectionError" <> BadResponse /\
  domain (snd (records st)) = domain st.
Proof.
  destruct (records_raises
              (fresh "example.com" [Raise (OtherException "ConnectionError")])
              (snd (records (fresh "example.com"
                               [Raise (OtherException "ConnectionError")])))
              (OtherException "ConnectionError")) as (Hne & _ & Hdom).
  - vm_compute. reflexivity.
  - split; [exact Hne|exact Hdom].
Defined.

(** X22.  The records are memoised when there are any: once the property
    [records] has returned a list that is not empty, reading it again
    returns the same list and changes nothing, so that no call is made. *)
Theorem records_memoised {W : Type} `{Services W} (st st1 : State W)
    (l : list DNS.record) :
  records st = (Ok l, st1) -> l <> [] -> records st1 = (Ok l, st1).
Proof. apply records_again. Qed.

Lemma records_memoised_witness :
  let st1 := snd (records (fresh "example.com" [Ok www_zone])) in
  records st1 = (Ok www_zone, st1).
Proof.
  apply (records_memoised (fresh "example.com" [Ok www_zone])).
  - vm_compute. reflexivity.
  - discriminate.
Defined.

(** X7.  A non-empty zone id that [r53_zone_id] returns is either the one
    already held by the object, returned without any call, or the id of
    the first zone in the backend's answer whose name is exactly the
    domain's name followed by a dot. *)
Theorem r53_zone_id_exact {W : Type} `{Services W} (st st' : State W)
    (id : string) :
  r53_zone_id st = (Ok (Some id), st') ->
  id <> EmptyString ->
  (_r53_zone_id (domain st) = Some id /\ st' = st) \/
  (exists zones w',
     list_hosted_zones_by_name (name (domain st)) (world st) = (Ok zones, w') /\
     world st' = w' /\
     matching_zone (name (domain st)) zones = Some id /\
     exists zone, In zone zones /\
                  HostedZone.Name zone = name (domain st) +:+ "." /\
                  HostedZone.Id zone = id).
Proof.
  unfold r53_zone_id. unfold_monad.
  destruct (truthy_str (_r53_zone_id (domain st))) eqn:Ht.
  - intros [= Hid <-] _. by left.
  - unfold on_r53_client.
    destruct (list_hosted_zones_by_name _ _) as [[zones|e] w] eqn:Hl; simpl.
    + destruct (matching_zone _ zones) as [id'|] eqn:Hm; simpl.
      * intros [= <- <-] _. right. exists zones, w. repeat split; try done.
        by apply matching_zone_exact.
      * intros [= Hid <-] Hne. rewrite Hid in Ht. by destruct id.
    + destruct e; simpl; try done.
      intros [= Hid <-] Hne. rewrite Hid in Ht. by destruct id.
Qed.

(** The zone of [example.com] after that of [example.com.au]. *)
Lemma r53_zone_id_exact_witness :
  let st :=
    Sim.start (Sim.new_domain "example.com" 0) []
      (Sim.initial []
         (Ok [{| HostedZone.Name := "example.com.au.";
                 HostedZone.Id := "/hostedzone/Z2" |};
              {| HostedZone.Name := "example.com.";
                 HostedZone.Id := "/hostedzone/Z1" |}])
         (Ok "/change/C1")) in
  exists zones,
    matching_zone "example.com" zones = Some "/hostedzone/Z1" /\
    exists zone, In zone zones /\
                 HostedZone.Name zone = "example.com." /\
                 HostedZone.Id zone = "/hostedzone/Z1".
Proof.
  simpl.
  match goal with
  | |- exists zones, matching_zone _ zones = _ /\ _ =>
      destruct (r53_zone_id_exact
        (Sim.start (Sim.new_domain "example.com" 0) []
           (Sim.initial []
              (Ok [{| HostedZone.Name := "example.com.au.";
                      HostedZone.Id := "/hostedzone/Z2" |};
                   {| HostedZone.Name := "example.com.";
                      HostedZone.Id := "/hostedzone/Z1" |}])
              (Ok "/change/C1")))
        (snd (r53_zone_id
           (Sim.start (Sim.new_domain "example.com" 0) []
              (Sim.initial []
                 (Ok [{| HostedZone.Name := "example.com.au.";
                         HostedZone.Id := "/hostedzone/Z2" |};
                      {| HostedZone.Name := "example.com.";
                         HostedZone.Id := "/hostedzone/Z1" |}])
                 (Ok "/change/C1")))))
        "/hostedzone/Z1")
        as [[Hcached _]|(zones & w' & _ & _ & Hm & Hzone)]
  end.
  - vm_compute. reflexivity.
  - discriminate.
  - discriminate Hcached.
  - exists zones. split; [exact Hm|exact Hzone].
Defined.

(** X8.  The zone id is memoised: once [r53_zone_id] has returned a
    non-empty id, reading it again returns the same id and changes
    nothing, so that no call is made. *)
Theorem r53_zone_id_memoised {W : Type} `{Services W} (st st' : State W)
    (id : string) :
  r53_zone_id st = (Ok (Some id), st') ->
  id <> EmptyString ->
  r53_zone_id st' = (Ok (Some id), st').
Proof.
  intros Hrun Hne.
  assert (_r53_zone_id (domain st') = Some id) as Hc.
  { revert Hrun. unfold r53_zone_id. unfold_monad.
    destruct (truthy_str (_r53_zone_id (domain st))) eqn:Ht.
    - by intros [= Hid <-].
    - unfold on_r53_client.
      destruct (list_hosted_zones_by_name _ _) as [[zones|e] w]; simpl.
      + destruct (matching_zone _ zones); simpl; by intros [= <- <-].
      + destruct e; simpl; try done. by intros [= <- <-]. }
  unfold r53_zone_id. unfold_monad. rewrite Hc.
  destruct id; [done|]. done.
Qed.

Lemma r53_zone_id_memoised_witness :
  let st := fresh "example.com" [] in
  let st' := snd (r53_zone_id st) in
  r53_zone_id st' = (Ok (Some "/hostedzone/Z1"), st').
Proof.
  apply (r53_zone_id_memoised (fresh "example.com" [])).
  - vm_compute. reflexivity.
  - discriminate.
Defined.

(** X9.  [gd_update_nameservers] never raises: it returns [true] when the
    call through the client succeeds and [false] when that call raises,
    whatever the exception; the client and the world are left as the call
    left them and the rest of the state is untouched. *)
Theorem gd_update_nameservers_returns {W : Type} `{Services W}
    (st : State W) (nameservers : list string) :
  exists (b : bool) (st' : State W),
    gd_update_nameservers nameservers st = (Ok b, st') /\
    (b = true <->
     fst (GoDaddyClient.update_domain (name (domain st)) nameservers
            (gd_client st, world st)) = Ok tt) /\
    (gd_client st', world st')
    = snd (GoDaddyClient.update_domain (name (domain st)) nameservers
             (gd_client st, world st)) /\
    same_domain st st'.
Proof.
  unfold gd_update_nameservers. unfold_monad. unfold on_gd_client.
  destruct (GoDaddyClient.update_domain _ _ _) as [[[]|e] [c w]]; simpl.
  - eexists _, _. split; [reflexivity|]. by repeat split.
  - eexists _, _. split; [reflexivity|]. by repeat split.
Qed.

(** X10.  [r53_get_nameservers] never raises: it returns the name servers
    the backend gives for the zone id, and the empty list when the lookup
    of the zone id or the call for the zone raises. *)
Theorem r53_get_nameservers_returns {W : Type} `{Services W} (st : State W) :
  exists (nameservers : list string) (st' : State W),
    r53_get_nameservers st = (Ok nameservers, st') /\
    nameservers
    = match r53_zone_id st with
      | (Ok id, st1) =>
          match get_hosted_zone id (world st1) with
          | (Ok l, _) => l
          | (Raise _, _) => []
          end
      | (Raise _, _) => []
      end.
Proof.
  unfold r53_get_nameservers, try_except, bind.
  destruct (r53_zone_id st) as [[id|e] st1]; simpl.
  - unfold on_r53_client.
    destruct (get_hosted_zone id (world st1)) as [[l|e] w]; simpl; eauto.
  - eauto.
Qed.

(** X11.  When the backend creates the zone and gives it a non-empty id,
    [r53_create_zone] returns that id and keeps it in the object, and
    makes no other call: the world is as the creation left it. *)
Theorem r53_create_zone_created {W : Type} `{Services W} (st : State W)
    (id : string) (w' : W) :
  create_hosted_zone (name (domain st)) (world st) = (Ok id, w') ->
  id <> EmptyString ->
  exists st',
    r53_create_zone st = (Ok (Some id), st') /\
    _r53_zone_id (domain st') = Some id /\
    _records (domain st') = _records (domain st) /\
    gd_client st' = gd_client st /\
    world st' = w'.
Proof.
  intros Hc Hne. unfold r53_create_zone. unfold_monad. unfold on_r53_client.
  rewrite Hc. simpl. unfold r53_zone_id. unfold_monad. simpl.
  destruct id as [|a id]; [done|]. simpl. eauto 10.
Qed.

Lemma r53_create_zone_created_witness :
  let st := two_domains_state (Ok "/change/C1") in
  exists st',
    r53_create_zone st = (Ok (Some "/hostedzone/Z1"), st') /\
    _r53_zone_id (domain st') = Some "/hostedzone/Z1".
Proof.
  set (st := two_domains_state (Ok "/change/C1")). simpl.
  destruct (r53_create_zone_created st "/hostedzone/Z1"
              (snd (create_hosted_zone (name (domain st)) (world st))))
    as (st' & Hrun & Hid & _).
  - vm_compute. reflexivity.
  - discriminate.
  - exists st'. split; [exact Hrun|exact Hid].
Defined.

(** X12.  When the creation raises, whatever the exception (the zone
    exists already, or any other failure), [r53_create_zone] does not
    raise it: what it returns, and the state it ends in, are those of
    reading the property [r53_zone_id] twice in the world the failed call
    has left.  So
    - with an id held already, it returns that id and calls nothing more;
    - with no id held and a lookup that returns a list with a zone whose
      name is the domain's name and a dot and whose id is not empty, it
      returns that id after this one lookup and keeps it in the object;
    - with no id held and a lookup that raises another exception than
      [InvalidInput], it raises that exception after this one lookup;
    - with no id held and two lookups that return lists without a zone of
      that name, it returns after the second lookup what the object held,
      which is no id. *)
Theorem r53_create_zone_existing {W : Type} `{Services W} (st : State W)
    (e : exn) (w1 : W) :
  create_hosted_zone (name (domain st)) (world st) = (Raise e, w1) ->
  let st1 := {| domain := domain st; gd_client := gd_client st;
                domains_data := domains_data st;
                output_file := output_file st; world := w1 |} in
  r53_create_zone st = (r53_zone_id ;; r53_zone_id) st1 /\
  (truthy_str (_r53_zone_id (domain st)) = true ->
   r53_create_zone st = (Ok (_r53_zone_id (domain st)), st1)) /\
  (truthy_str (_r53_zone_id (domain st)) = false ->
   (forall zones w2 id,
      list_hosted_zones_by_name (name (domain st)) w1 = (Ok zones, w2) ->
      matching_zone (name (domain st)) zones = Some id ->
      id <> EmptyString ->
      exists st',
        r53_create_zone st = (Ok (Some id), st') /\
        _r53_zone_id (domain st') = Some id /\
        world st' = w2) /\
   (forall e' w2,
      list_hosted_zones_by_name (name (domain st)) w1 = (Raise e', w2) ->
      e' <> InvalidInput ->
      exists st',
        r53_create_zone st = (Raise e', st') /\ world st' = w2) /\
   (forall zones w2 zones' w3,
      list_hosted_zones_by_name (name (domain st)) w1 = (Ok zones, w2) ->
      matching_zone (name (domain st)) zones = None ->
      list_hosted_zones_by_name (name (domain st)) w2 = (Ok zones', w3) ->
      matching_zone (name (domain st)) zones' = None ->
      exists st',
        r53_create_zone st = (Ok (_r53_zone_id (domain st)), st') /\
        truthy_str (_r53_zone_id (domain st')) = false /\
        world st' = w3)).
Proof.
  intros Hc st1.
  assert (r53_create_zone st = (r53_zone_id ;; r53_zone_id) st1) as Hrun.
  { unfold r53_create_zone. unfold_monad. unfold on_r53_client.
    rewrite Hc. reflexivity. }
  split; [exact Hrun|]. rewrite Hrun. clear Hrun Hc.
  unfold r53_zone_id. unfold_monad. unfold on_r53_client.
  subst st1. simpl.
  split; [intros Ht; rewrite Ht; simpl; rewrite Ht; reflexivity|].
  intros Ht. rewrite Ht. simpl. split; [|split].
  - intros zones w2 id Hl Hm Hne. rewrite Hl. simpl. rewrite Hm. simpl.
    destruct id as [|a id]; [done|]. simpl. eauto.
  - intros e' w2 Hl He. rewrite Hl. simpl.
    destruct e'; try done; simpl; eauto.
  - intros zones w2 zones' w3 Hl Hm Hl' Hm'. rewrite Hl. simpl.
    rewrite Hm. simpl. rewrite Ht. simpl. rewrite Hl'. simpl. rewrite Hm'.
    simpl. eauto.
Qed.

Lemma r53_create_zone_existing_witness :
  let st :=
    Sim.start (Sim.new_domain "example.com" 0) []
      {| Sim.clock := 0; Sim.get_records_script := [];
         Sim.update_domain_answer := Ok tt;
         Sim.list_hosted_zones_answer :=
           Ok [{| HostedZone.Name := "example.com.";
                  HostedZone.Id := "/hostedzone/Z7" |}];
         Sim.create_hosted_zone_answer := Raise HostedZoneAlreadyExists;
         Sim.get_hosted_zone_answer := Ok [];
         Sim.change_answer := Ok "/change/C1";
         Sim.calls := [] |} in
  exists st',
    r53_create_zone st = (Ok (Some "/hostedzone/Z7"), st') /\
    map Sim.op (Sim.calls (world st'))
    = ["create_hosted_zone"; "list_hosted_zones_by_name"].
Proof.
  simpl.
  match goal with
  | |- exists st', r53_create_zone ?st = _ /\ _ =>
      destruct (r53_create_zone_existing st HostedZoneAlreadyExists
                  (snd (create_hosted_zone (name (domain st)) (world st))))
        as (_ & _ & Hcases);
        [ vm_compute; reflexivity | ];
      destruct Hcases as (Hfound & _ & _); [ reflexivity | ];
      destruct (Hfound
                  [{| HostedZone.Name := "example.com.";
                      HostedZone.Id := "/hostedzone/Z7" |}]
                  (snd (list_hosted_zones_by_name (name (domain st))
                          (snd (create_hosted_zone (name (domain st)) (world st)))))
                  "/hostedzone/Z7")
        as (st' & Hrun & _ & Hworld)
  end.
  - vm_compute. reflexivity.
  - vm_compute. reflexivity.
  - discriminate.
  - exists st'. split; [exact Hrun|]. rewrite Hworld. vm_compute. reflexivity.
Defined.

(** ** What the transformer leaves alone and what it never emits *)

(** The body keeps a record parked or not parked as it was. *)
Lemma transform_parked (self_name : string) (r r' : DNS.record) (v : res bool) :
  transform self_name r = (v, r') -> is_parked_apex r' = is_parked_apex r.
Proof.
  destruct r as [n t d l p]. unfold_transform. unfold is_parked_apex.
  eqb_cases; intros [= <- <-]; simpl;
    repeat match goal with
           | |- context [String.eqb ?a ?b] =>
               destruct (String.eqb_spec a b); try subst; simpl
           end; try reflexivity; try congruence.
  all: simpl in *; try congruence.
  all: exfalso; eapply append_dot_ne_at; eassumption.
Qed.

Lemma for_records_unchanged (self_name : string) (rs rs' : list DNS.record)
    (agg : Aggregated) (r : res Aggregated) :
  for_records self_name rs agg = (r, rs') ->
  length rs' = length rs /\
  map DNS.type rs' = map DNS.type rs /\
  map DNS.ttl rs' = map DNS.ttl rs /\
  map DNS.priority rs' = map DNS.priority rs /\
  map is_parked_apex rs' = map is_parked_apex rs.
Proof.
  revert agg r rs'. induction rs as [|r0 rs IH]; intros agg r rs'; simpl.
  - by intros [= <- <-].
  - destruct (transform self_name r0) as [[[|]|e] r1] eqn:Ht;
      assert (Hf := transform_fields _ _ _ _ Ht);
      assert (Hp := transform_parked _ _ _ _ Ht);
      destruct Hf as (Hty & Httl & Hpr).
    + destruct (for_records self_name rs (aggregate r1 agg)) as [v rest] eqn:Hloop.
      intros [= <- <-]. apply IH in Hloop as (? & ? & ? & ? & ?).
      simpl. repeat split; congruence.
    + destruct (for_records self_name rs agg) as [v rest] eqn:Hloop.
      intros [= <- <-]. apply IH in Hloop as (? & ? & ? & ? & ?).
      simpl. repeat split; congruence.
    + intros [= <- <-]. simpl. repeat split; congruence.
Qed.

(** X13.  However the loop of [r53_create_records] ends, it leaves the
    list with the records it had, each with its type, its TTL and its
    priority, and each a parked apex record or not as it was. *)
Theorem for_records_keeps (self_name : string) (rs rs' : list DNS.record)
    (agg : Aggregated) (r : res Aggregated) :
  for_records self_name rs agg = (r, rs') ->
  length rs' = length rs /\
  map DNS.type rs' = map DNS.type rs /\
  map DNS.ttl rs' = map DNS.ttl rs /\
  map DNS.priority rs' = map DNS.priority rs /\
  map is_parked_apex rs' = map is_parked_apex rs.
Proof. apply for_records_unchanged. Qed.

(** An [MX] record without priority stops the loop at the second record;
    the list is still one of three records of the same types. *)
Lemma for_records_keeps_witness :
  let rs := [a_record "www" "1.2.3.4"; record_of "@" "MX" "mail.example.com";
             a_record "@" "Parked"] in
  fst (for_records "example.com" rs []) = Raise (KeyError "priority") /\
  length (snd (for_records "example.com" rs [])) = 3%nat /\
  map DNS.type (snd (for_records "example.com" rs [])) = ["A"; "MX"; "A"].
Proof.
  cbv zeta.
  match goal with
  | |- fst (for_records ?s ?rs ?agg) = _ /\ _ =>
      destruct (for_records_keeps s rs (snd (for_records s rs agg)) agg
                  (fst (for_records s rs agg)))
        as (Hlen & Htypes & _)
  end.
  - vm_compute. reflexivity.
  - split; [vm_compute; reflexivity|]. split; [exact Hlen|exact Htypes].
Defined.

Lemma existsb_same {A B : Type} (f : A -> B) (p : B -> bool) (l l' : list A) :
  map f l = map f l' ->
  existsb (fun x => p (f x)) l = existsb (fun x => p (f x)) l'.
Proof.
  revert l'. induction l as [|x l IH]; intros [|x' l']; simpl; try done.
  intros [= Hx Hl]. by rewrite Hx, (IH l' Hl).
Qed.

Section AfterTransform.
Context {W : Type} `{Services W}.

(** Whatever the outcome of the loop, the cache holds the list as the loop
    left it. *)
Lemma r53_changes_cache (st st0 st1 : State W) (rs : list DNS.record)
    (r : res (list Change.t)) :
  records st = (Ok rs, st0) ->
  r53_changes st = (r, st1) ->
  _records (domain st1) = Some (snd (for_records (name (domain st)) rs [])).
Proof.
  intros Hr. unfold r53_changes. unfold bind at 1. rewrite Hr.
  rewrite <- (records_name _ _ _ Hr).
  unfold bind at 1. unfold get_domain at 1.
  destruct (for_records (name (domain st0)) rs []) as [[agg|e] rs1];
    unfold_monad; simpl; by intros [= <- <-].
Qed.

Lemma r53_create_records_cache (st st0 st2 : State W) (rs : list DNS.record)
    (r : res string) :
  records st = (Ok rs, st0) ->
  r53_create_records st = (r, st2) ->
  _records (domain st2) = Some (snd (for_records (name (domain st)) rs [])).
Proof.
  intros Hr. unfold r53_create_records. unfold bind at 1.
  destruct (r53_changes st) as [[changes|e] st1] eqn:Hc;
    assert (Hcache := r53_changes_cache _ _ _ _ _ Hr Hc).
  - unfold bind at 1.
    destruct (r53_zone_id st1) as [[id|e] st1'] eqn:Hz;
      apply r53_zone_id_frame in Hz as [_ Hrec].
    + unfold on_r53_client.
      destruct (change_resource_record_sets _ _ _) as [v w].
      intros [= <- <-]. simpl. congruence.
    + intros [= <- <-]. congruence.
  - intros [= <- <-]. done.
Qed.
End AfterTransform.

(** X14.  The answers of [has_mx_records] and [requires_zone_migration]
    do not depend on whether [r53_create_records] has run: after a call of
    it on a list [rs] that is not empty, whatever its outcome, both are
    answered from the cache, without any call, as they are for [rs] as it
    was fetched. *)
Theorem report_after_transform {W : Type} `{Services W}
    (st st0 st2 : State W) (rs : list DNS.record) (r : res string) :
  records st = (Ok rs, st0) ->
  rs <> [] ->
  r53_create_records st = (r, st2) ->
  has_mx_records st2
  = (Ok (existsb (fun record => DNS.type record == "MX") rs), st2) /\
  requires_zone_migration st2
  = (Ok (negb (existsb is_parked_apex rs) || (length rs <=? 6)%nat), st2).
Proof.
  intros Hr Hne Hrun.
  assert (Hcache := r53_create_records_cache _ _ _ _ _ Hr Hrun).
  destruct (for_records (name (domain st)) rs []) as [v rs'] eqn:Hloop.
  apply for_records_unchanged in Hloop as (Hlen & Hty & _ & _ & Hpark).
  simpl in Hcache.
  assert (rs' <> []) as Hne' by (destruct rs, rs'; done).
  assert (Hread := records_cached st2 rs' Hcache Hne'). split.
  - unfold has_mx_records, bind. rewrite Hread. unfold ret.
    by rewrite (existsb_same DNS.type (fun t => t == "MX") rs' rs Hty).
  - rewrite (requires_zone_migration_eq _ _ _ Hread).
    assert (existsb is_parked_apex rs' = existsb is_parked_apex rs) as ->
      by apply (existsb_same is_parked_apex (fun b => b) rs' rs Hpark).
    rewrite Hlen. by destruct rs'.
Qed.

(** A zone with an [MX] record and a backend that refuses the batch. *)
Lemma report_after_transform_witness :
  let st := Sim.start (Sim.new_domain "example.com" 0) (frame_of ["example.com"])
              (Sim.initial [Ok [mx_record; a_record "@" "1.2.3.4"]] (Ok [])
                 (Raise (OtherException "InvalidChangeBatch"))) in
  let st2 := snd (r53_create_records st) in
  fst (has_mx_records st2) = Ok true /\
  fst (requires_zone_migration st2) = Ok true.
Proof.
  cbv zeta.
  match goal with
  | |- fst (has_mx_records (snd (r53_create_records ?st))) = _ /\ _ =>
      destruct (report_after_transform st (snd (records st))
                  (snd (r53_create_records st))
                  [mx_record; a_record "@" "1.2.3.4"]
                  (fst (r53_create_records st))) as [Hmx Hreq]
  end.
  - vm_compute. reflexivity.
  - discriminate.
  - vm_compute. reflexivity.
  - rewrite Hmx, Hreq. split; reflexivity.
Defined.

(** What a record that reaches the aggregation looks like. *)
Lemma transform_kept (self_name : string) (r r' : DNS.record) :
  transform self_name r = (Ok true, r') ->
  DNS.type r' <> "SOA" /\ DNS.type r' <> "NS" /\
  (DNS.name r' = self_name \/ exists n, DNS.name r' = n +:+ "." +:+ self_name) /\
  (DNS.type r' = "A" -> DNS.data r' <> "Parked") /\
  (DNS.type r' = "SRV" -> length (split (DNS.data r')) = 4%nat) /\
  (DNS.type r' = "TXT" -> exists d, DNS.data r' = dquote +:+ d +:+ dquote) /\
  (DNS.type r' = "MX" ->
   exists p d, DNS.data r' = str_of_int p +:+ " " +:+ d).
Proof.
  destruct r as [n t d l p]. unfold_transform.
  eqb_cases; intros [= <-]; simpl;
    rewrite ?negb_true_iff, ?negb_false_iff, ?Nat.eqb_eq, ?Nat.eqb_neq in *;
    repeat split; try done; try congruence; eauto.
Qed.

(** X15.  In a batch that the loop of [r53_create_records] has built, no
    record set has the type [SOA] or [NS]; every name is the domain's name
    or ends with a dot and the domain's name; every record set has a value;
    no [A] record set has the value [Parked]; every value of an [SRV]
    record set splits into 4 fields, every value of a [TXT] record set is
    between double quotes and every value of an [MX] record set starts with
    a priority and a space. *)
Theorem batch_contents (self_name : string) (records records' : list DNS.record)
    (aggregated_records : Aggregated) :
  for_records self_name records [] = (Ok aggregated_records, records') ->
  forall c, In c (changes_of aggregated_records) ->
    let rrset := Change.ResourceRecordSet c in
    ResourceRecordSet.Type_ rrset <> "SOA" /\
    ResourceRecordSet.Type_ rrset <> "NS" /\
    (ResourceRecordSet.Name rrset = self_name \/
     exists n, ResourceRecordSet.Name rrset = n +:+ "." +:+ self_name) /\
    ResourceRecordSet.ResourceRecords rrset <> [] /\
    (forall v, In v (ResourceRecordSet.ResourceRecords rrset) ->
       (ResourceRecordSet.Type_ rrset = "A" ->
        ResourceRecord.Value v <> "Parked") /\
       (ResourceRecordSet.Type_ rrset = "SRV" ->
        length (split (ResourceRecord.Value v)) = 4%nat) /\
       (ResourceRecordSet.Type_ rrset = "TXT" ->
        exists d, ResourceRecord.Value v = dquote +:+ d +:+ dquote) /\
       (ResourceRecordSet.Type_ rrset = "MX" ->
        exists p d, ResourceRecord.Value v = str_of_int p +:+ " " +:+ d)).
Proof.
  intros Hloop c (k & Hin & _)%changes_of_In rrset. subst rrset.
  destruct (for_records_represents _ _ _ _ Hloop) as (_ & _ & Hent).
  destruct (Hent k _ Hin) as (Hn & Ht & Hrr & first & rest & Hfirst & _).
  assert (forall r', In r' (with_key k (survivors self_name records)) ->
            key_of r' = k /\ exists r, transform self_name r = (Ok true, r'))
    as Hgroup.
  { intros r' [Hs Hk]%filter_In. apply key_eqb_eq in Hk.
    apply survivors_In in Hs as (r & _ & Hr). eauto. }
  destruct (Hgroup first) as [Hk (r & Hr)]; [rewrite Hfirst; by left|].
  destruct (transform_kept _ _ _ Hr) as (Hsoa & Hns & Hname & _).
  rewrite Hn, Ht, <- Hk. simpl.
  split; [done|]. split; [done|]. split; [done|].
  split; [by rewrite Hrr, Hfirst|].
  intros v Hv. rewrite Hrr in Hv.
  apply in_map_iff in Hv as (r' & <- & Hr').
  destruct (Hgroup r' Hr') as [Hk' (r0 & Hr0)].
  destruct (transform_kept _ _ _ Hr0) as (_ & _ & _ & Ha & Hsrv & Htxt & Hmx).
  assert (DNS.type r' = DNS.type first) as Hty
    by (rewrite <- Hk in Hk'; by injection Hk').
  simpl. rewrite <- Hty. done.
Qed.

(** The change of the [MX] record in the batch of an [MX] record and a
    [TXT] record at the apex. *)
Lemma batch_contents_witness :
  ResourceRecordSet.Type_ (Change.ResourceRecordSet mx_change) <> "SOA" /\
  (ResourceRecordSet.Name (Change.ResourceRecordSet mx_change) = "example.com" \/
   exists n, ResourceRecordSet.Name (Change.ResourceRecordSet mx_change)
             = n +:+ "." +:+ "example.com") /\
  ResourceRecordSet.ResourceRecords (Change.ResourceRecordSet mx_change) <> [].
Proof.
  destruct (batch_contents "example.com"
              [mx_record; record_of "@" "TXT" "v=spf1 -all"]
              (snd (for_records "example.com"
                      [mx_record; record_of "@" "TXT" "v=spf1 -all"] []))
              (fold_left (fun a r => aggregate r a)
                 (survivors "example.com"
                    [mx_record; record_of "@" "TXT" "v=spf1 -all"]) [])
              ltac:(vm_compute; reflexivity) mx_change
              ltac:(vm_compute; left; reflexivity))
    as (Hsoa & _ & Hname & Hvalues & _).
  split; [exact Hsoa|]. split; [exact Hname|exact Hvalues].
Defined.

(** ** A domain without records *)

Section NoRecords.
Context {W : Type} `{Services W}.

Lemma records_nothing (d : Domain) (st : State W) :
  (forall w, fst (client_get_records (name d) w) = Raise BadResponse \/
             fst (client_get_records (name d) w) = Ok []) ->
  nothing_cached d st ->
  exists st1,
    records st = (Ok [], st1) /\ nothing_cached d st1 /\
    domains_data st1 = domains_data st /\ output_file st1 = output_file st.
Proof.
  intros Hgd (Hn & Hi & Hz & Hc).
  unfold records. unfold_monad. rewrite Hc. simpl.
  unfold on_gd_client, GoDaddyClient.get_records, bind.
  destruct (GoDaddyClient._wait_until _) as [[[]|e] [c w]] eqn:Hw.
  - rewrite Hn. specialize (Hgd w).
    destruct (client_get_records (name d) w) as [r w1]. simpl in Hgd.
    destruct Hgd as [-> | ->]; simpl; eexists; (split; [reflexivity|]);
      by repeat split.
  - unfold GoDaddyClient._wait_until in Hw.
    by destruct (_ <? _) in Hw.
Qed.

Lemma gd_dns_exists_nothing (d : Domain) (st : State W) :
  (forall w, fst (client_get_records (name d) w) = Raise BadResponse \/
             fst (client_get_records (name d) w) = Ok []) ->
  nothing_cached d st ->
  exists st1,
    gd_dns_exists st = (Ok false, st1) /\ nothing_cached d st1 /\
    domains_data st1 = domains_data st /\ output_file st1 = output_file st.
Proof.
  intros Hgd Hq. destruct (records_nothing d st Hgd Hq) as (st1 & Hr & Hrest).
  exists st1. split; [|done]. unfold gd_dns_exists, bind. by rewrite Hr.
Qed.
End NoRecords.

(** X16.  A domain with nothing cached, for which the registrar answers
    [BadResponse] or the empty list every time: the body of the loop ends
    without exception, and in the row of the domain the cells
    [Has GoDaddy DNS], [Requires DNS Migration], [AWS DNS Records Created]
    and [Supports Email] are [No]; the domain has the zone id it had. *)
Theorem process_without_records {W : Type} `{Services W} (d : Domain)
    (st : State W) :
  (forall w, fst (client_get_records (name d) w) = Raise BadResponse \/
             fst (client_get_records (name d) w) = Ok []) ->
  truthy_list (_records d) = false ->
  exists st',
    process d st = (Ok tt, st') /\
    domains_data st' !! index d
    = (fun row => <["Supports Email" := Some "No"]>
                    (<["AWS DNS Records Created" := Some "No"]>
                       (<["Requires DNS Migration" := Some "No"]>
                          (<["Has GoDaddy DNS" := Some "No"]> row))))
      <$> domains_data st !! index d /\
    _r53_zone_id (domain st') = _r53_zone_id d.
Proof.
  intros Hgd Hc. unfold process.
  unfold bind at 1. cbn [set_domain].
  unfold bind at 1.
  edestruct (gd_dns_exists_nothing d) as (st1 & -> & Hq1 & Hd1 & Ho1);
    [exact Hgd| |].
  { by repeat split. }
  unfold bind at 1. cbn [at_set yes_no].
  unfold bind at 1. unfold requires_zone_migration at 1. unfold bind at 1.
  edestruct (gd_dns_exists_nothing d) as (st2 & -> & Hq2 & Hd2 & Ho2);
    [exact Hgd| |].
  { exact Hq1. }
  cbn [negb ret]. cbv beta iota.
  unfold bind at 1. cbn [at_set]. unfold bind at 1. cbn [at_set].
  unfold bind at 1. unfold has_mx_records at 1. unfold bind at 1.
  edestruct (records_nothing d) as (st3 & -> & Hq3 & Hd3 & Ho3);
    [exact Hgd| |].
  { exact Hq2. }
  cbn [ret existsb at_set yes_no]. eexists. split; [reflexivity|].
  cbn [domains_data domain]. split; [|by destruct Hq3 as (_ & _ & ? & _)].
  rewrite Hd3. cbn [domains_data]. rewrite Hd2. cbn [domains_data].
  rewrite Hd1. cbn [domains_data]. unfold DataFrame in *.
  rewrite !list_lookup_alter_eq.
  by destruct (_ !! index d).
Qed.

(** A domain the registrar does not know. *)
Lemma process_without_records_witness :
  let d := Sim.new_domain "example.com" 0 in
  let st : State Unknown.t :=
    {| domain := d; gd_client := GoDaddyClient.__init__ 0;
       domains_data := frame_of ["example.com"]; output_file := None;
       world := 0 |} in
  exists st',
    process d st = (Ok tt, st') /\
    _r53_zone_id (domain st') = None.
Proof.
  cbv zeta.
  match goal with
  | |- exists st', process ?d ?st = _ /\ _ =>
      destruct (process_without_records d st) as (st' & Hrun & _ & Hzone)
  end.
  - intros w. left. reflexivity.
  - reflexivity.
  - exists st'. split; [exact Hrun|exact Hzone].
Defined.

(** ** The constructor of [Domain] *)

Lemma lower_char_idem (c : ascii) : lower_char (lower_char c) = lower_char c.
Proof. destruct c as [[] [] [] [] [] [] [] []]; reflexivity. Qed.

Lemma isspace_lower_char (c : ascii) : isspace (lower_char c) = isspace c.
Proof. destruct c as [[] [] [] [] [] [] [] []]; reflexivity. Qed.

Lemma lower_char_not_capital (c : ascii) :
  ~ (65 <= nat_of_ascii (lower_char c) <= 90)%nat.
Proof. destruct c as [[] [] [] [] [] [] [] []]; vm_compute; lia. Qed.

Lemma lower_idem (s : string) : lower (lower s) = lower s.
Proof.
  induction s as [|c s IH]; simpl; [done|]. by rewrite lower_char_idem, IH.
Qed.

Lemma lower_lstrip (s : string) : lower (lstrip s) = lstrip (lower s).
Proof.
  induction s as [|c s IH]; simpl; [done|]. rewrite isspace_lower_char.
  by destruct (isspace c).
Qed.

Lemma lower_rstrip (s : string) : lower (rstrip s) = rstrip (lower s).
Proof.
  induction s as [|c s IH]; simpl; [done|]. rewrite <- IH, isspace_lower_char.
  destruct (rstrip s); simpl; [by destruct (isspace c)|done].
Qed.

Lemma lstrip_clean_start (s : string) : clean_start (lstrip s).
Proof.
  induction s as [|c s IH]; simpl; [by intros c s' [=]|].
  destruct (isspace c) eqn:Hc; [done|]. by intros c' s' [= <- <-].
Qed.

Lemma lstrip_id (s : string) : clean_start s -> lstrip s = s.
Proof.
  destruct s as [|c s]; simpl; [done|]. intros Hs.
  by rewrite (Hs c s eq_refl).
Qed.

Lemma rstrip_clean_start (s : string) : clean_start s -> clean_start (rstrip s).
Proof.
  destruct s as [|c s]; simpl; [done|]. intros Hs.
  assert (isspace c = false) as Hc by by apply (Hs c s).
  destruct (rstrip s); rewrite ?Hc; by intros c' s' [= <- <-].
Qed.

Lemma rstrip_clean_end (s : string) : clean_end (rstrip s).
Proof.
  induction s as [|c s IH]; simpl.
  - intros [|c' s'] c0; simpl; discriminate.
  - destruct (rstrip s) as [|c1 t] eqn:Hr.
    + destruct (isspace c) eqn:Hc.
      * intros [|c' s'] c0; simpl; discriminate.
      * intros [|c' s'] c0; simpl; [by intros [= <-]|].
        intros [= _ Habs]. by destruct s'.
    + intros [|c' s'] c0; simpl; [discriminate|].
      intros [= _ Heq]. by apply (IH s' c0).
Qed.

Lemma rstrip_idem (s : string) : rstrip (rstrip s) = rstrip s.
Proof.
  induction s as [|c s IH]; simpl; [done|].
  destruct (rstrip s) as [|c1 t] eqn:Hr.
  - destruct (isspace c) eqn:Hc; simpl; [done|by rewrite Hc].
  - simpl in *. by rewrite IH.
Qed.

Lemma strip_idem (s : string) : strip (strip s) = strip s.
Proof.
  unfold strip. rewrite (lstrip_id (rstrip (lstrip s))).
  - apply rstrip_idem.
  - apply rstrip_clean_start, lstrip_clean_start.
Qed.

Lemma lower_chars (s : string) (c : ascii) :
  In c (list_ascii_of_string (lower s)) -> ~ (65 <= nat_of_ascii c <= 90)%nat.
Proof.
  induction s as [|c0 s IH]; simpl; [done|].
  intros [<-|Hin]; [apply lower_char_not_capital|by apply IH].
Qed.

Lemma lstrip_chars (s : string) (c : ascii) :
  In c (list_ascii_of_string (lstrip s)) -> In c (list_ascii_of_string s).
Proof.
  induction s as [|c0 s IH]; simpl; [done|].
  destruct (isspace c0); simpl; [right; by apply IH|done].
Qed.

Lemma rstrip_chars (s : string) (c : ascii) :
  In c (list_ascii_of_string (rstrip s)) -> In c (list_ascii_of_string s).
Proof.
  induction s as [|c0 s IH]; simpl; [done|].
  destruct (rstrip s) as [|c1 t].
  - destruct (isspace c0); simpl; [done|]. intros [<-|[]]. by left.
  - simpl in *. intros [<-|Hin]; [by left|right; by apply IH].
Qed.

(** X17.  The name of a new [Domain] is in normal form: making a domain
    from it gives the same name again; it neither starts nor ends with
    whitespace; and it has no letter from [A] to [Z].  The object starts
    without zone id and without records.  (Nothing is said of the length
    of the name: see [lower].) *)
Theorem make_domain_normal (row_name : string) (i : nat) :
  let d := make_domain row_name i in
  name (make_domain (name d) i) = name d /\
  clean_start (name d) /\
  clean_end (name d) /\
  (forall c, In c (list_ascii_of_string (name d)) ->
             ~ (65 <= nat_of_ascii c <= 90)%nat) /\
  _r53_zone_id d = None /\ _records d = None /\ index d = i.
Proof.
  cbn [make_domain name _r53_zone_id _records index]. unfold strip.
  split.
  - rewrite lower_rstrip, lower_lstrip, lower_idem. apply strip_idem.
  - split; [apply rstrip_clean_start, lstrip_clean_start|].
    split; [apply rstrip_clean_end|]. split; [|done].
    intros c Hc. by apply rstrip_chars, lstrip_chars, lower_chars in Hc.
Qed.

(** ** The cells of a row *)

Lemma bind_ok {S A B : Type} (m : M S A) (k : A -> M S B) (s s' : S) (b : B) :
  bind m k s = (Ok b, s') ->
  exists a s1, m s = (Ok a, s1) /\ k a s1 = (Ok b, s').
Proof.
  unfold bind. destruct (m s) as [[a|e] s1]; [eauto|done].
Qed.

Section Cells.
Context {W : Type} `{Services W}.

Lemma at_set_data (i : nat) (column : string) (value : option string)
    (st st' : State W) (r : res unit) :
  at_set i column value st = (r, st') ->
  domains_data st' = alter (insert column value) i (domains_data st).
Proof. by intros [= <- <-]. Qed.

Lemma set_domain_data (d : Domain) (st st' : State W) (r : res unit) :
  set_domain d st = (r, st') -> domains_data st' = domains_data st.
Proof. by intros [= <- <-]. Qed.

Lemma ret_data {A} (a : A) (st st' : State W) (r : res A) :
  ret a st = (r, st') -> domains_data st' = domains_data st.
Proof. by intros [= <- <-]. Qed.

(** The facts about the data frame that the steps of [process] give. *)
Ltac step_facts :=
  repeat match goal with
    | H : bind _ _ _ = (Ok _, _) |- _ =>
        apply bind_ok in H as (? & ? & ? & H)
    | H : (if ?b then _ else _) _ = (Ok _, _) |- _ => destruct b
    | H : match ?l with [] => _ | _ :: _ => _ end _ = (Ok _, _) |- _ =>
        destruct l
    | H : ret _ _ = (Ok _, _) |- _ => apply ret_data in H
    | H : set_domain _ _ = (Ok _, _) |- _ => apply set_domain_data in H
    | H : at_set _ _ _ _ = (Ok _, _) |- _ => apply at_set_data in H
    | H : gd_dns_exists _ = _ |- _ =>
        apply keeps_gd_dns_exists in H as (_ & _ & H & _)
    | H : requires_zone_migration _ = _ |- _ =>
        apply keeps_requires_zone_migration in H as (_ & _ & H & _)
    | H : has_mx_records _ = _ |- _ =>
        apply keeps_has_mx_records in H as (_ & _ & H & _)
    | H : r53_zone_exists _ = _ |- _ =>
        apply keeps_r53_zone_exists in H as (_ & _ & H & _)
    | H : r53_create_zone _ = _ |- _ =>
        apply keeps_r53_create_zone in H as (_ & _ & H & _)
    | H : r53_zone_id _ = _ |- _ =>
        apply keeps_r53_zone_id in H as (_ & _ & H & _)
    | H : r53_create_records _ = _ |- _ =>
        apply keeps_r53_create_records in H as (_ & _ & H & _)
    | H : r53_get_nameservers _ = _ |- _ =>
        apply keeps_r53_get_nameservers in H as (_ & _ & H & _)
    | H : gd_update_nameservers _ _ = _ |- _ =>
        apply keeps_gd_update_nameservers in H as (_ & H & _)
    end.

Lemma process_row_cells (d : Domain) (st st' : State W)
    (row : gmap string (option string)) :
  process d st = (Ok tt, st') ->
  domains_data st !! index d = Some row ->
  exists has_dns required has_mx (row1 : gmap string (option string)),
    domains_data st' !! index d
    = Some (<["Supports Email" := yes_no has_mx]>
              (<["AWS DNS Records Created" := yes_no required]> row1)) /\
    row1 !! "Requires DNS Migration" = Some (yes_no required) /\
    row1 !! "Has GoDaddy DNS" = Some (yes_no has_dns).
Proof.
  intros Hp Hrow. unfold process in Hp. step_facts.
  all: repeat match goal with
         | Heq : domains_data ?s' = _ |- _ => rewrite Heq; clear Heq
         end.
  all: unfold DataFrame in *; rewrite ?list_lookup_alter_eq, Hrow;
    cbn [fmap option_fmap option_map].
  all: first [ eexists _, true, _, _; split; [reflexivity|]
             | eexists _, false, _, _; split; [reflexivity|] ].
  all: split;
    repeat first [ rewrite lookup_insert_eq
                 | rewrite lookup_insert_ne by done ];
    reflexivity.
Qed.

Lemma process_row_filled (d : Domain) (st st' : State W)
    (row : gmap string (option string)) :
  process d st = (Ok tt, st') ->
  domains_data st !! index d = Some row ->
  exists row', domains_data st' !! index d = Some row' /\ filled row'.
Proof.
  intros Hp Hrow.
  destruct (process_row_cells d st st' row Hp Hrow)
    as (has_dns & required & has_mx & row1 & -> & Hreq & Hdns).
  eexists. split; [reflexivity|]. exists has_dns, required, has_mx.
  repeat split;
    repeat first [ rewrite lookup_insert_eq
                 | rewrite lookup_insert_ne by done ]; done.
Qed.

(** Handling another domain keeps a row filled. *)
Lemma filled_kept (d : Domain) (st st' : State W) (r : res unit) (j : nat)
    (row : gmap string (option string)) :
  process d st = (r, st') -> j <> index d ->
  domains_data st !! j = Some row -> domains_data st' !! j = Some row.
Proof.
  intros Hp Hj Hrow. apply keeps_process in Hp as (_ & _ & Hrows & _).
  by rewrite Hrows.
Qed.

Lemma for_domains_filled (domains : list Domain) (st st' : State W) :
  NoDup (map index domains) ->
  for_domains domains st = (Ok tt, st') ->
  forall d, In d domains ->
    is_Some (domains_data st !! index d) ->
    exists row', domains_data st' !! index d = Some row' /\ filled row'.
Proof.
  revert st. induction domains as [|d0 domains IH]; intros st Hnd Hrun d Hin;
    [done|].
  simpl in Hrun. apply bind_ok in Hrun as ([] & st1 & Hp & Hrest).
  simpl in Hnd. apply NoDup_cons in Hnd as [Hfresh Hnd].
  intros [row Hrow].
  destruct (decide (index d = index d0)) as [Heq|Hne].
  - rewrite Heq in *.
    destruct (process_row_filled d0 st st1 row Hp Hrow) as (row' & Hrow' & Hf).
    exists row'. split; [|done].
    apply keeps_for_domains in Hrest as (_ & _ & Hrows & _).
    rewrite Hrows; [done|]. by rewrite <- list_elem_of_In.
  - destruct Hin as [->|Hin]; [done|].
    apply (IH st1 Hnd Hrest d Hin). exists row.
    by apply (filled_kept d0 st st1 (Ok tt)).
Qed.
End Cells.

(** ** The list of domains and the whole run *)

Lemma make_domains_from_spec (i : nat) (rows : DataFrame) :
  match make_domains_from i rows with
  | Ok domains =>
      map index domains = seq i (length rows) /\
      Forall2 (fun row d => exists row_name,
                 row !! "Name" = Some (Some row_name) /\
                 d = make_domain row_name (index d)) rows domains
  | Raise e =>
      exists row, In row rows /\
                  ~ exists row_name, row !! "Name" = Some (Some row_name)
  end.
Proof.
  revert i. induction rows as [|row rows IH]; intros i; simpl.
  - split; [done|constructor].
  - destruct (row !! "Name") as [[row_name|]|] eqn:Hname.
    + specialize (IH (S i)).
      destruct (make_domains_from (S i) rows) as [domains|e].
      * destruct IH as [Hidx Hall]. split; [simpl; by rewrite Hidx|].
        constructor; [|done]. by exists row_name.
      * destruct IH as (row' & Hin & Hno). exists row'. auto.
    + exists row. split; [by left|]. intros [n Hn]. congruence.
    + exists row. split; [by left|]. intros [n Hn]. congruence.
Qed.

(** X18.  The list of domains has one domain for each row of the data
    frame, in order: the domain of row [i] has index [i] and is the new
    [Domain] of the row's [Name] cell.  The list is only made when every
    row has a name in that cell; otherwise an exception is raised. *)
Theorem make_domains_spec (rows : DataFrame) :
  match make_domains rows with
  | Ok domains =>
      map index domains = seq 0 (length rows) /\
      Forall2 (fun row d => exists row_name,
                 row !! "Name" = Some (Some row_name) /\
                 d = make_domain row_name (index d)) rows domains
  | Raise e =>
      exists row, In row rows /\
                  ~ exists row_name, row !! "Name" = Some (Some row_name)
  end.
Proof. apply make_domains_from_spec. Qed.

(** X19.  Handling a domain whose row exists ends, when it ends without
    exception, with the four cells [Has GoDaddy DNS],
    [Requires DNS Migration], [AWS DNS Records Created] and
    [Supports Email] of that row set to [Yes] or [No], the third as the
    second. *)
Theorem process_fills_row {W : Type} `{Services W} (d : Domain)
    (st st' : State W) (row : gmap string (option string)) :
  process d st = (Ok tt, st') ->
  domains_data st !! index d = Some row ->
  exists row', domains_data st' !! index d = Some row' /\ filled row'.
Proof. apply process_row_filled. Qed.

Lemma process_fills_row_witness :
  let st := two_domains_state (Ok "/change/C1") in
  exists row',
    domains_data (snd (process (Sim.new_domain "a.com" 0) st)) !! 0%nat
    = Some row' /\ filled row'.
Proof.
  apply (process_fills_row (Sim.new_domain "a.com" 0)
           (two_domains_state (Ok "/change/C1")) _ {[ "Name" := Some "a.com" ]}).
  - vm_compute. reflexivity.
  - vm_compute. reflexivity.
Defined.

(** X20.  A run of the script that ends without exception has written
    the report; the report is the data frame at the end, which has a row
    for each row read, with the same [Name] cell and with the four cells
    of the loop filled. *)
Theorem main_report {W : Type} `{Services W} (st st' : State W) :
  main st = (Ok tt, st') ->
  output_file st' = Some (domains_data st') /\
  length (domains_data st') = length (domains_data st) /\
  forall j row,
    domains_data st !! j = Some row ->
    exists row',
      domains_data st' !! j = Some row' /\
      row' !! "Name" = row !! "Name" /\
      filled row'.
Proof.
  unfold main. unfold bind at 1. cbn [get].
  assert (Hspec := make_domains_from_spec 0 (domains_data st)).
  fold (make_domains (domains_data st)) in Hspec.
  destruct (make_domains (domains_data st)) as [domains|e]; [|done].
  destruct Hspec as [Hidx _].
  unfold processing_loop. intros ([] & st1 & Hloop & Hcsv)%bind_ok.
  injection Hcsv as <-. cbn [output_file domains_data].
  assert (Hkeep := keeps_for_domains domains _ _ _ Hloop).
  destruct Hkeep as (_ & Hlen & _ & Hnames).
  split; [done|]. split; [done|].
  intros j row Hrow.
  assert (j < length (domains_data st))%nat as Hj by by eapply lookup_lt_Some.
  assert (exists d, In d domains /\ index d = j) as (d & Hd & <-).
  { assert (In j (map index domains)) as Hin
      by (rewrite Hidx; apply in_seq; lia).
    apply in_map_iff in Hin as (d & ? & ?). eauto. }
  destruct (for_domains_filled domains st st1) with (d := d)
    as (row' & Hrow' & Hfilled); try done.
  { rewrite Hidx. apply NoDup_ListNoDup, seq_NoDup. }
  exists row'. split; [done|]. split; [|done].
  specialize (Hnames (index d)). unfold DataFrame in *.
  rewrite Hrow', Hrow in Hnames. done.
Qed.

Lemma main_report_witness :
  let st := two_domains_state (Ok "/change/C1") in
  output_file (snd (main st)) = Some (domains_data (snd (main st))) /\
  length (domains_data (snd (main st))) = 2%nat.
Proof.
  destruct (main_report (two_domains_state (Ok "/change/C1"))
              (snd (main (two_domains_state (Ok "/change/C1")))))
    as (Hout & Hlen & _).
  - vm_compute. reflexivity.
  - split; [exact Hout|exact Hlen].
Defined.

(** ** The list of domains read from a text file *)

Lemma rstrip_app_space (s : string) (c : ascii) :
  isspace c = true -> rstrip (s +:+ String c EmptyString) = rstrip s.
Proof.
  intros Hc. induction s as [|a s IH]; simpl; [by rewrite Hc|].
  by rewrite IH.
Qed.

Lemma strip_app_space (s : string) (c : ascii) :
  isspace c = true -> strip (s +:+ String c EmptyString) = strip s.
Proof.
  intros Hc. unfold strip. induction s as [|a s IH]; [simpl; by rewrite Hc|].
  change (String a s +:+ String c EmptyString)
    with (String a (s +:+ String c EmptyString)).
  cbn [lstrip]. destruct (isspace a); [done|].
  change (String a (s +:+ String c EmptyString))
    with (String a s +:+ String c EmptyString).
  by rewrite rstrip_app_space.
Qed.

Lemma chars_app (s t : string) (c : ascii) :
  In c (list_ascii_of_string (s +:+ t)) <->
  In c (list_ascii_of_string s) \/ In c (list_ascii_of_string t).
Proof.
  induction s as [|a s IH]; simpl; [tauto|]. rewrite IH. tauto.
Qed.

Lemma strip_no_break (s : string) : no_break s -> no_break (strip s).
Proof.
  intros Hs c Hc. apply Hs. unfold strip in Hc.
  by apply lstrip_chars, rstrip_chars.
Qed.

(** Every line is a text without line break, followed or not by a line
    feed. *)
Lemma readlines_go_lines (after_cr : bool) (cur s : string) :
  no_break cur ->
  Forall (fun line => exists body,
            no_break body /\
            (line = body \/ line = body +:+ String LF EmptyString))
         (readlines_go after_cr cur s).
Proof.
  revert after_cr cur. induction s as [|c s IH]; intros after_cr cur Hcur; simpl.
  - destruct cur; constructor; [|constructor]. eauto.
  - destruct (Ascii.eqb_spec c LF) as [->|Hlf].
    + destruct after_cr; [by apply IH|].
      constructor; [eauto|]. apply IH. by intros c [].
    + destruct (Ascii.eqb_spec c CR) as [->|Hcr].
      * constructor; [eauto|]. apply IH. by intros c [].
      * apply IH. intros c' [Hin|[<-|[]]]%chars_app; [by apply Hcur|done].
Qed.

(** X21.  [get_domains_list] returns the empty list when the file cannot
    be opened or read, whatever the exception; otherwise it returns one
    name for each line of the text, and a name neither starts nor ends with
    whitespace and has no line feed or carriage return in it. *)
Theorem get_domains_list_names (opened : res string) :
  (forall e, opened = Raise e -> get_domains_list opened = []) /\
  (forall text, opened = Ok text ->
     length (get_domains_list opened) = length (readlines text)) /\
  Forall (fun n => clean_start n /\ clean_end n /\ no_break n)
         (get_domains_list opened).
Proof.
  split; [by intros e ->|]. split; [intros text ->; apply length_map|].
  destruct opened as [text|e]; [|constructor]. simpl.
  apply Forall_map.
  eapply Forall_impl; [apply readlines_go_lines; by intros c []|].
  intros line (body & Hbody & Hline). simpl.
  split; [apply rstrip_clean_start, lstrip_clean_start|].
  split; [apply rstrip_clean_end|].
  destruct Hline as [->| ->]; [by apply strip_no_break|].
  rewrite strip_app_space by done. by apply strip_no_break.
Qed.

(** ** No value lost *)

Lemma fold_aggregate_count (todo done : list DNS.record) (agg : Aggregated) :
  represents done agg ->
  length (values_of (changes_of (fold_left (fun a r => aggregate r a) todo agg)))
  = (length (values_of (changes_of agg)) + length todo)%nat.
Proof.
  revert done agg. induction todo as [|r todo IH]; intros done agg Hrep; simpl.
  - lia.
  - rewrite (IH (done ++ [r])) by by apply represents_step.
    rewrite (aggregate_count done agg r Hrep). lia.
Qed.

(** X23.  The batch that the loop of [r53_create_records] builds has as
    many values as records reached the aggregation: no surviving record is
    lost and none gives two values. *)
Theorem batch_value_count (self_name : string) (records records' : list DNS.record)
    (aggregated_records : Aggregated) :
  for_records self_name records [] = (Ok aggregated_records, records') ->
  length (values_of (changes_of aggregated_records))
  = length (survivors self_name records).
Proof.
  intros [-> _]%for_records_ok.
  by rewrite (fold_aggregate_count _ [] [] represents_nil).
Qed.

(** The two [www] records give two values. *)
Lemma batch_value_count_witness :
  length (values_of www_changes) = 2%nat.
Proof.
  assert (length (values_of www_changes)
          = length (survivors "example.com" www_zone)) as ->.
  { apply (batch_value_count "example.com" www_zone
             (snd (for_records "example.com" www_zone []))
             (fold_left (fun a r => aggregate r a)
                (survivors "example.com" www_zone) [])).
    vm_compute. reflexivity. }
  vm_compute. reflexivity.
Defined.
